(** * apollo_extractor: the match-then-enrich lookup workflow

    A shallow embedding of [src/apollo_extractor.py].  Vendor payloads are
    JSON values; Python dictionaries are association lists that keep the
    insertion order (the order is what the CSV writer and the JSON dump
    see); the client's mutable state (the four credit counters), the log of
    POST requests and the files written are threaded through a small
    state-and-exception monad, because a Python exception keeps the
    mutations made before it was raised. *)

From Stdlib Require Import String Ascii List ZArith Bool Lia.
Import ListNotations.
Open Scope string_scope.
Open Scope Z_scope.
Set Warnings "-register-all".

(* ================================================================== *)
(** ** JSON values and Python's view of them *)
(* ================================================================== *)

(** What [response.json()] can hold.  Numbers are kept as integers: the
    program never computes with a number, it only tests one for truth. *)
Inductive json : Type :=
| JNull
| JBool (b : bool)
| JInt (n : Z)
| JStr (s : string)
| JList (l : list json)
| JObj (d : list (string * json)).

(** A Python [dict] with string keys, in insertion order.  Lookup takes the
    first binding of a key. *)
Definition dict : Type := list (string * json).

Module Py.

(** Python exceptions the program can run into. *)
Inductive exn : Type :=
| AttributeError
| TypeError
| KeyError
| ValueError.

(** [bool(v)]: [None], [False], [0], [""], [[]] and [{}] are false. *)
Definition truthy (v : json) : bool :=
  match v with
  | JNull => false
  | JBool b => b
  | JInt n => negb (n =? 0)
  | JStr s => negb (s =? "")%string
  | JList l => match l with [] => false | _ :: _ => true end
  | JObj d => match d with [] => false | _ :: _ => true end
  end.

(** [v == lit] for a string literal [lit]. *)
Definition eq_str (v : json) (lit : string) : bool :=
  match v with
  | JStr s => (s =? lit)%string
  | _ => false
  end.

Fixpoint lookup (k : string) (d : dict) : option json :=
  match d with
  | [] => None
  | (k', v) :: rest => if (k' =? k)%string then Some v else lookup k rest
  end.

(** [k in d]. *)
Definition mem (k : string) (d : dict) : bool :=
  match lookup k d with Some _ => true | None => false end.

(** [d.get(k, dflt)] and [d.get(k)]. *)
Definition get_or (d : dict) (k : string) (dflt : json) : json :=
  match lookup k d with Some v => v | None => dflt end.

Definition get (d : dict) (k : string) : json := get_or d k JNull.

(** [d[k] = v]: an existing key keeps its position, a new key goes last. *)
Fixpoint set (k : string) (v : json) (d : dict) : dict :=
  match d with
  | [] => [(k, v)]
  | (k', v') :: rest =>
      if (k' =? k)%string then (k', v) :: rest else (k', v') :: set k v rest
  end.

Definition keys (d : dict) : list string := map fst d.

(** The characters of a string, as one-character strings. *)
Fixpoint chars (s : string) : list json :=
  match s with
  | EmptyString => []
  | String c rest => JStr (String c EmptyString) :: chars rest
  end.

(** Python's ASCII white space.  [str.strip()] removes these and the white
    space beyond ASCII (U+0085, U+00A0, U+2003 and the like) as well; the
    model strips the ASCII ones only, so a url padded with non-ASCII blanks
    keeps them in the payload it spells.  Nothing else reads the stripped
    text. *)
Definition is_space (c : ascii) : bool :=
  let n := nat_of_ascii c in
  ((9 <=? n) && (n <=? 13) || (28 <=? n) && (n <=? 32))%nat.

Fixpoint lstrip (s : string) : string :=
  match s with
  | EmptyString => EmptyString
  | String c rest => if is_space c then lstrip rest else s
  end.

Fixpoint rstrip (s : string) : string :=
  match s with
  | EmptyString => EmptyString
  | String c rest =>
      match rstrip rest with
      | EmptyString => if is_space c then EmptyString else String c EmptyString
      | r => String c r
      end
  end.

Definition strip (s : string) : string := rstrip (lstrip s).

End Py.

(* ================================================================== *)
(** ** Configuration *)
(* ================================================================== *)

Definition APOLLO_API_BASE_URL : string := "https://api.apollo.io/v1".

Definition OUTPUT_FIELDNAMES : list string :=
  [ "input_linkedin_url"; "first_name"; "last_name"; "job_title";
    "company_name"; "company_website"; "industry"; "verified_email";
    "verified_mobile_phone"; "linkedin_url"; "apollo_person_id";
    "lookup_used"; "apollo_error" ].

(* ================================================================== *)
(** ** Client state *)
(* ================================================================== *)

Record CreditUsage : Type := mkCredits {
  match_credits : Z;
  enrich_credits : Z;
  email_credits : Z;
  mobile_credits : Z
}.

(** [CreditUsage()]: every counter starts at 0. *)
Definition CreditUsage0 : CreditUsage := mkCredits 0 0 0 0.

(** What [_write_output] leaves on disk: the header and the text cells of
    a CSV file, or the value dumped as JSON. *)
Inductive file_content : Type :=
| CsvFile (header : list string) (rows : list (list string))
| JsonFile (v : json).

(** The client's counters, the POST requests issued so far (oldest first,
    as url and body) and the files written so far (oldest first). *)
Record world : Type := mkWorld {
  credits : CreditUsage;
  calls : list (string * json);
  files : list (string * file_content)
}.

Definition world0 : world := mkWorld CreditUsage0 [] [].

(** What [requests.post] followed by [raise_for_status] and [json()] gives:
    the decoded body, or a [RequestException] with its text and the status
    code of its response when it has one. *)
Inductive http_outcome : Type :=
| HttpOk (body : dict)
| HttpFail (msg : string) (status : option Z).

(* ================================================================== *)
(** ** State and exceptions *)
(* ================================================================== *)

Inductive outcome (A : Type) : Type :=
| Ret (a : A)
| Raise (e : Py.exn).
Arguments Ret {A} a.
Arguments Raise {A} e.

Definition M (A : Type) : Type := world -> outcome A * world.

Definition ret {A} (a : A) : M A := fun w => (Ret a, w).

Definition raise {A} (e : Py.exn) : M A := fun w => (Raise e, w).

Definition bind {A B} (m : M A) (f : A -> M B) : M B :=
  fun w =>
    match m w with
    | (Ret a, w') => f a w'
    | (Raise e, w') => (Raise e, w')
    end.

Declare Scope py_scope.
Delimit Scope py_scope with py.
Notation "x <- m ;; k" := (bind m (fun x => k))
  (at level 61, m at next level, right associativity) : py_scope.
Notation "m ;;; k" := (bind m (fun _ => k))
  (at level 61, right associativity) : py_scope.
Open Scope py_scope.

Definition modify (f : world -> world) : M unit := fun w => (Ret tt, f w).

Definition with_credits (f : CreditUsage -> CreditUsage) (w : world) : world :=
  mkWorld (f (credits w)) (calls w) (files w).

Definition bump_match (c : CreditUsage) : CreditUsage :=
  mkCredits (match_credits c + 1) (enrich_credits c) (email_credits c) (mobile_credits c).
Definition bump_enrich (c : CreditUsage) : CreditUsage :=
  mkCredits (match_credits c) (enrich_credits c + 1) (email_credits c) (mobile_credits c).
Definition bump_email (c : CreditUsage) : CreditUsage :=
  mkCredits (match_credits c) (enrich_credits c) (email_credits c + 1) (mobile_credits c).
Definition bump_mobile (c : CreditUsage) : CreditUsage :=
  mkCredits (match_credits c) (enrich_credits c) (email_credits c) (mobile_credits c + 1).

Definition log_call (url : string) (body : json) (w : world) : world :=
  mkWorld (credits w) (calls w ++ [(url, body)]) (files w).

Definition write_file (path : string) (c : file_content) (w : world) : world :=
  mkWorld (credits w) (calls w) (files w ++ [(path, c)]).

(** [v.get(k)] and [v.get(k, dflt)] on a value that may not be a dict. *)
Definition attr_get (v : json) (k : string) : M json :=
  match v with
  | JObj d => ret (Py.get d k)
  | _ => raise Py.AttributeError
  end.

Definition attr_get_or (v : json) (k : string) (dflt : json) : M json :=
  match v with
  | JObj d => ret (Py.get_or d k dflt)
  | _ => raise Py.AttributeError
  end.

(** [d[k]]. *)
Definition subscript (d : dict) (k : string) : M json :=
  match Py.lookup k d with
  | Some v => ret v
  | None => raise Py.KeyError
  end.

(** The items a [for] loop over [v] visits: the elements of a list, the
    characters of a string, the keys of a dict. *)
Definition iter (v : json) : M (list json) :=
  match v with
  | JList l => ret l
  | JStr s => ret (Py.chars s)
  | JObj d => ret (map JStr (Py.keys d))
  | _ => raise Py.TypeError
  end.

(* ================================================================== *)
(** ** The client *)
(* ================================================================== *)

(** A parsed input table: the header [csv.DictReader] reports ([None] for an
    empty file) and the non-blank data rows, each a list of cells. *)
Record csv_table : Type := mkTable {
  fieldnames : option (list string);
  rows : list (list string)
}.

Section ApolloClient.

(** The network: the outcome of a POST, given the requests issued before
    it, the url and the JSON body.  The fixed delay before each call and
    the API-key header do not change any result and are left out. *)
Variable requests_post : list (string * json) -> string -> json -> http_outcome.

(** [str(v)] for a value that is not a string (its [repr]). *)
Variable py_repr : json -> string.

(** The input files: [None] when [os.path.exists] is false. *)
Variable read_csv : string -> option csv_table.

(** [str(v)], as an f-string formats a value. *)
Definition py_str (v : json) : string :=
  match v with
  | JStr s => s
  | _ => py_repr v
  end.

Definition _post (endpoint : string) (payload : json) : M dict :=
  fun w =>
    let url := APOLLO_API_BASE_URL ++ "/" ++ endpoint in
    let r :=
      match requests_post (calls w) url payload with
      | HttpOk body => body
      | HttpFail msg status =>
          [ ("error", JStr msg);
            ("status_code", JInt (match status with Some c => c | None => 500 end)) ]
      end in
    (Ret r, log_call url payload w).

(** STEP 1: match by LinkedIn url. *)
Definition match_by_linkedin (linkedin_url : json) : M dict :=
  stripped <- match linkedin_url with
              | JStr s => ret (Py.strip s)
              | _ => raise Py.AttributeError
              end ;;
  let payload := JObj [("person", JObj [("linkedin_url", JStr stripped)])] in
  modify (with_credits bump_match) ;;;
  _post "people/match" payload.

(** STEP 2: enrich (fallback). *)
Definition enrich_person (person : json) : M dict :=
  linkedin <- attr_get person "linkedin_url" ;;
  first <- attr_get person "first_name" ;;
  last <- attr_get person "last_name" ;;
  org <- attr_get_or person "organization" (JObj []) ;;
  org_name <- attr_get org "name" ;;
  let payload := JObj [ ("linkedin_url", linkedin); ("first_name", first);
                        ("last_name", last); ("organization_name", org_name) ] in
  modify (with_credits bump_enrich) ;;;
  _post "people/enrich" payload.

(** The [for e in emails] loop of [extract_verified_email]. *)
Fixpoint email_loop (emails : list json) : M json :=
  match emails with
  | [] => ret JNull
  | e :: rest =>
      status <- attr_get e "status" ;;
      if Py.eq_str status "verified" then
        ty <- attr_get e "type" ;;
        if Py.eq_str ty "work" || Py.eq_str ty "email" then
          modify (with_credits bump_email) ;;;
          attr_get e "email"
        else email_loop rest
      else email_loop rest
  end.

Definition extract_verified_email (person : json) : M json :=
  emails <- attr_get_or person "emails" (JList []) ;;
  items <- iter emails ;;
  email_loop items.

(** The [for p in phones] loop of [extract_verified_mobile]. *)
Fixpoint phone_loop (phones : list json) : M json :=
  match phones with
  | [] => ret JNull
  | p :: rest =>
      label <- attr_get p "label" ;;
      if Py.eq_str label "mobile" then
        status <- attr_get p "status" ;;
        if Py.eq_str status "verified" then
          modify (with_credits bump_mobile) ;;;
          sanitized <- attr_get p "sanitized_number" ;;
          if Py.truthy sanitized then ret sanitized
          else attr_get p "number"
        else phone_loop rest
      else phone_loop rest
  end.

Definition extract_verified_mobile (person : json) : M json :=
  phones <- attr_get_or person "phone_numbers" (JList []) ;;
  items <- iter phones ;;
  phone_loop items.

(** Extract all required fields. *)
Definition _extract_all (person : json) : M dict :=
  org <- attr_get_or person "organization" (JObj []) ;;
  input_linkedin_url <- attr_get person "linkedin_url" ;;
  first_name <- attr_get person "first_name" ;;
  last_name <- attr_get person "last_name" ;;
  job_title <- attr_get person "title" ;;
  company_name <- attr_get org "name" ;;
  company_website <- attr_get org "website_url" ;;
  industry <- attr_get org "industry" ;;
  verified_email <- extract_verified_email person ;;
  verified_mobile_phone <- extract_verified_mobile person ;;
  linkedin_url <- attr_get person "linkedin_url" ;;
  apollo_person_id <- attr_get person "id" ;;
  ret [ ("input_linkedin_url", input_linkedin_url);
        ("first_name", first_name);
        ("last_name", last_name);
        ("job_title", job_title);
        ("company_name", company_name);
        ("company_website", company_website);
        ("industry", industry);
        ("verified_email", verified_email);
        ("verified_mobile_phone", verified_mobile_phone);
        ("linkedin_url", linkedin_url);
        ("apollo_person_id", apollo_person_id);
        ("lookup_used", JNull);
        ("apollo_error", JNull) ].

(** Empty or failed result. *)
Definition _empty_result (linkedin_url : json) (error : string) : dict :=
  let out := map (fun field => (field, JNull)) OUTPUT_FIELDNAMES in
  let out := Py.set "input_linkedin_url" linkedin_url out in
  Py.set "apollo_error" (JStr error) out.

(** Main person lookup workflow. *)
Definition lookup_person (linkedin_url : json) : M dict :=
  if negb (Py.truthy linkedin_url) then
    ret (_empty_result JNull "Empty LinkedIn URL.")
  else
    m <- match_by_linkedin linkedin_url ;;
    if Py.mem "error" m then
      err <- subscript m "error" ;;
      ret (_empty_result linkedin_url ("MATCH API error: " ++ py_str err))
    else
      let person := Py.get m "person" in
      let lookup_used := JStr "match" in
      if negb (Py.truthy person) then
        ret (_empty_result linkedin_url "No match found.")
      else
        extracted <- _extract_all person ;;
        let extracted := Py.set "lookup_used" lookup_used extracted in
        mobile <- subscript extracted "verified_mobile_phone" ;;
        if Py.truthy mobile then ret extracted
        else
          enrich <- enrich_person person ;;
          let lookup_used := JStr "enrich" in
          if Py.mem "error" enrich then
            let extracted := Py.set "lookup_used" lookup_used extracted in
            err <- subscript enrich "error" ;;
            ret (Py.set "apollo_error" (JStr ("Enrich error: " ++ py_str err)) extracted)
          else
            let enriched_person := Py.get enrich "person" in
            if Py.truthy enriched_person then
              enriched <- _extract_all enriched_person ;;
              let enriched := Py.set "lookup_used" lookup_used enriched in
              ret (Py.set "input_linkedin_url" linkedin_url enriched)
            else
              let extracted := Py.set "lookup_used" lookup_used extracted in
              ret (Py.set "apollo_error" (JStr "No enrichment data returned.") extracted).

(** The row dict [csv.DictReader] yields: the header zipped with the
    cells, then [None] for every header name past the last cell.  (Cells
    past the header go under the key [None], which no column name
    reaches.) *)
Fixpoint zip_row (names : list string) (cells : list string) (d : dict) : dict :=
  match names, cells with
  | n :: names', c :: cells' => zip_row names' cells' (Py.set n (JStr c) d)
  | _, [] => fold_left (fun acc n => Py.set n JNull acc) names d
  | [], _ :: _ => d
  end.

Definition DictReader_row (names : list string) (cells : list string) : dict :=
  zip_row names cells [].

(** [csv.DictWriter.writerows]: each record becomes the list of its
    values in header order ([""] for a missing key), and the writer spells
    each value as a cell: nothing for [None], a string as it is, [str(v)]
    for anything else.  A record with a key outside the header stops the
    writing with [ValueError], the rows before it staying in the file.
    (Quoting is the file format's business: a reader gets the cell text
    back.)  A path that cannot be opened and text that cannot be encoded
    are failures of the environment and are not part of this model. *)
Definition known_fields (r : dict) : bool :=
  forallb (fun k => existsb (String.eqb k) OUTPUT_FIELDNAMES) (Py.keys r).

Definition _dict_to_list (r : dict) : list json :=
  map (fun k => Py.get_or r k (JStr "")) OUTPUT_FIELDNAMES.

Definition csv_field (v : json) : string :=
  match v with
  | JNull => ""
  | _ => py_str v
  end.

Fixpoint writerows (results : list dict) : list (list string) * bool :=
  match results with
  | [] => ([], true)
  | r :: rest =>
      if known_fields r then
        let (written, ok) := writerows rest in
        (map csv_field (_dict_to_list r) :: written, ok)
      else ([], false)
  end.

(** Write CSV or JSON. *)
Definition _write_output (results : list dict) (output_path : string) (fmt : string)
  : M unit :=
  if (fmt =? "csv")%string then
    let (written, ok) := writerows results in
    modify (write_file output_path (CsvFile OUTPUT_FIELDNAMES written)) ;;;
    if ok then ret tt else raise Py.ValueError
  else if (fmt =? "json")%string then
    modify (write_file output_path (JsonFile (JList (map JObj results))))
  else ret tt.

(** The [for i, row in enumerate(reader)] loop of [process_csv]; the
    progress line printed every tenth row is console output only. *)
Fixpoint process_rows (names : list string) (linkedin_column : string)
    (table_rows : list (list string)) (results : list dict) : M (list dict) :=
  match table_rows with
  | [] => ret results
  | cells :: rest =>
      let row := DictReader_row names cells in
      let url := Py.get row linkedin_column in
      result <- lookup_person url ;;
      process_rows names linkedin_column rest (results ++ [result])
  end.

(** CSV processing. *)
Definition process_csv (input_csv output_path output_format linkedin_column : string)
  : M unit :=
  match read_csv input_csv with
  | None => ret tt
  | Some table =>
      match fieldnames table with
      | None => raise Py.TypeError
      | Some names =>
          if negb (existsb (String.eqb linkedin_column) names) then ret tt
          else
            results <- process_rows names linkedin_column (rows table) [] ;;
            _write_output results output_path output_format
      end
  end.

End ApolloClient.

(* ================================================================== *)
(** ** Specification-side definitions *)
(* ================================================================== *)

(** The shape of a vendor person the data model describes: [emails] and
    [phone_numbers], when present, are lists of mappings, and
    [organization], when present, is a mapping.  The scalar fields are left
    unconstrained. *)
Definition is_obj (v : json) : bool :=
  match v with JObj _ => true | _ => false end.

Definition obj_list_field (k : string) (p : dict) : bool :=
  match Py.lookup k p with
  | None => true
  | Some (JList l) => forallb is_obj l
  | Some _ => false
  end.

Definition obj_field (k : string) (p : dict) : bool :=
  match Py.lookup k p with
  | None => true
  | Some v => is_obj v
  end.

Definition person_schema (p : dict) : bool :=
  obj_list_field "emails" p && obj_list_field "phone_numbers" p
  && obj_field "organization" p.

(** A person payload the workflow can digest: anything false (no person),
    or a mapping of the shape above. *)
Definition person_ok (v : json) : bool :=
  negb (Py.truthy v) || match v with JObj p => person_schema p | _ => false end.

Definition response_ok (b : dict) : bool :=
  Py.mem "error" b || person_ok (Py.get b "person").

(** The vendor keeps to the data model in every successful response. *)
Definition vendor_ok
    (requests_post : list (string * json) -> string -> json -> http_outcome) : Prop :=
  forall history url payload body,
    requests_post history url payload = HttpOk body -> response_ok body = true.

(** The candidate lists of a person. *)
Definition candidates (k : string) (p : dict) : list json :=
  match Py.lookup k p with
  | Some (JList l) => l
  | _ => []
  end.

(** In the spec's words: status equals "verified" and type is one of
    "work", "email". *)
Definition email_qualifies (e : json) : bool :=
  match e with
  | JObj d =>
      Py.eq_str (Py.get d "status") "verified"
      && (Py.eq_str (Py.get d "type") "work" || Py.eq_str (Py.get d "type") "email")
  | _ => false
  end.

(** In the spec's words: label equals "mobile" and status equals
    "verified". *)
Definition phone_qualifies (p : json) : bool :=
  match p with
  | JObj d =>
      Py.eq_str (Py.get d "label") "mobile" && Py.eq_str (Py.get d "status") "verified"
  | _ => false
  end.

(** First-match selection, in list order. *)
Definition first_email (p : dict) : option json :=
  find email_qualifies (candidates "emails" p).

Definition first_phone (p : dict) : option json :=
  find phone_qualifies (candidates "phone_numbers" p).

Definition field_of (c : option json) (k : string) : json :=
  match c with
  | Some (JObj d) => Py.get d k
  | _ => JNull
  end.

Definition selected_email (p : dict) : json := field_of (first_email p) "email".

(** The sanitized number when it is true in Python's sense (present, not
    null, not empty), the raw number otherwise. *)
Definition selected_mobile (p : dict) : json :=
  if Py.truthy (field_of (first_phone p) "sanitized_number")
  then field_of (first_phone p) "sanitized_number"
  else field_of (first_phone p) "number".

Definition is_some {A} (o : option A) : bool :=
  match o with Some _ => true | None => false end.

Definition has_email (p : dict) : bool := is_some (first_email p).
Definition has_phone (p : dict) : bool := is_some (first_phone p).

(** One credit when a candidate was selected. *)
Definition charge (bump : CreditUsage -> CreditUsage) (found : bool) (w : world) : world :=
  if found then with_credits bump w else w.

(** The client state after extracting from person [p]. *)
Definition after_extract (p : dict) (w : world) : world :=
  charge bump_mobile (has_phone p) (charge bump_email (has_email p) w).

(** The record [_extract_all] builds from a well-shaped person. *)
Definition organization_of (p : dict) : dict :=
  match Py.get_or p "organization" (JObj []) with
  | JObj o => o
  | _ => []
  end.

Definition extracted_record (p : dict) (email mobile : json) : dict :=
  [ ("input_linkedin_url", Py.get p "linkedin_url");
    ("first_name", Py.get p "first_name");
    ("last_name", Py.get p "last_name");
    ("job_title", Py.get p "title");
    ("company_name", Py.get (organization_of p) "name");
    ("company_website", Py.get (organization_of p) "website_url");
    ("industry", Py.get (organization_of p) "industry");
    ("verified_email", email);
    ("verified_mobile_phone", mobile);
    ("linkedin_url", Py.get p "linkedin_url");
    ("apollo_person_id", Py.get p "id");
    ("lookup_used", JNull);
    ("apollo_error", JNull) ].

Definition b2z (b : bool) : Z := if b then 1 else 0.

(** A batch run as a chain of lookups: each url is looked up in the state
    the previous lookup left. *)
Inductive runs
    (requests_post : list (string * json) -> string -> json -> http_outcome)
    (py_repr : json -> string)
  : world -> list json -> list dict -> world -> Prop :=
| runs_nil : forall w, runs requests_post py_repr w [] [] w
| runs_cons : forall w url r w1 urls rs w2,
    lookup_person requests_post py_repr url w = (Ret r, w1) ->
    runs requests_post py_repr w1 urls rs w2 ->
    runs requests_post py_repr w (url :: urls) (r :: rs) w2.

(** The url cell of a row, as [process_csv] reads it. *)
Definition row_url (names : list string) (column : string) (cells : list string) : json :=
  Py.get (DictReader_row names cells) column.

(** Two client states that differ at most by one email credit and one
    mobile credit: what an extraction may change. *)
Definition contact_only (w w' : world) : Prop :=
  calls w' = calls w
  /\ files w' = files w
  /\ match_credits (credits w') = match_credits (credits w)
  /\ enrich_credits (credits w') = enrich_credits (credits w)
  /\ email_credits (credits w) <= email_credits (credits w') <= email_credits (credits w) + 1
  /\ mobile_credits (credits w) <= mobile_credits (credits w') <= mobile_credits (credits w) + 1.

(** The all-null record of a failed lookup: only the input url and the
    error message are filled. *)
Definition failure_record (url : json) (msg : string) : dict :=
  [ ("input_linkedin_url", url);
    ("first_name", JNull);
    ("last_name", JNull);
    ("job_title", JNull);
    ("company_name", JNull);
    ("company_website", JNull);
    ("industry", JNull);
    ("verified_email", JNull);
    ("verified_mobile_phone", JNull);
    ("linkedin_url", JNull);
    ("apollo_person_id", JNull);
    ("lookup_used", JNull);
    ("apollo_error", JStr msg) ].

(** The two requests of the workflow. *)
Definition match_url : string := "https://api.apollo.io/v1/people/match".
Definition enrich_url : string := "https://api.apollo.io/v1/people/enrich".

Definition match_payload (u : string) : json :=
  JObj [("person", JObj [("linkedin_url", JStr (Py.strip u))])].

(** What a run returned, if it returned, and one field of it. *)
Definition returned {A} (r : outcome A * world) : option A :=
  match fst r with
  | Ret a => Some a
  | Raise _ => None
  end.

Definition returned_field (k : string) (r : outcome dict * world) : option json :=
  option_map (fun d => Py.get d k) (returned r).

(** An email candidate and a phone candidate, as the vendor sends them. *)
Definition email_candidate (email : json) (status type : string) : json :=
  JObj [("email", email); ("status", JStr status); ("type", JStr type)].

Definition phone_candidate (number sanitized : json) (label status : string) : json :=
  JObj [ ("number", number); ("sanitized_number", sanitized);
         ("label", JStr label); ("status", JStr status) ].

(** The value a run returned, [dflt] when it raised. *)
Definition value_or {A} (dflt : A) (r : outcome A * world) : A :=
  match fst r with
  | Ret a => a
  | Raise _ => dflt
  end.

(* ================================================================== *)
(** ** Sample data *)
(* ================================================================== *)

Module Sample.

Definition url : string := "https://www.linkedin.com/in/ada".

Definition repr (v : json) : string := "<value>".

(** A network that answers the match request with one outcome and any
    other request with another. *)
Definition post_with (match_reply enrich_reply : http_outcome)
  : list (string * json) -> string -> json -> http_outcome :=
  fun _ request_url _ =>
    if (request_url =? match_url)%string then match_reply else enrich_reply.

Definition acme : json :=
  JObj [ ("name", JStr "Acme"); ("website_url", JStr "https://acme.example");
         ("industry", JStr "Engines") ].

(** A matched person with a verified mobile number; the vendor echoes a
    url that is not the one asked for. *)
Definition with_mobile : dict :=
  [ ("id", JStr "p-1");
    ("linkedin_url", JStr "http://www.linkedin.com/in/ada-lovelace");
    ("first_name", JStr "Ada"); ("last_name", JStr "Lovelace");
    ("title", JStr "Analyst");
    ("phone_numbers",
      JList [ phone_candidate (JStr "+1 555 0100") (JStr "+15550100") "work" "verified";
              phone_candidate (JStr "+1 555 0101") (JStr "+15550101") "mobile" "verified" ]);
    ("organization", acme) ].

(** A matched person with a verified work email and a verified mobile
    entry that carries no number. *)
Definition without_mobile : dict :=
  [ ("id", JStr "p-1");
    ("linkedin_url", JStr "http://www.linkedin.com/in/ada-lovelace");
    ("first_name", JStr "Ada"); ("last_name", JStr "Lovelace");
    ("title", JStr "Analyst");
    ("emails", JList [ email_candidate (JStr "ada@acme.example") "verified" "work" ]);
    ("phone_numbers",
      JList [ JObj [("label", JStr "mobile"); ("status", JStr "verified")] ]);
    ("organization", acme) ].

(** The same person after enrichment. *)
Definition enriched : dict :=
  [ ("id", JStr "p-1");
    ("linkedin_url", JStr "http://www.linkedin.com/in/countess-lovelace");
    ("first_name", JStr "Ada"); ("last_name", JStr "King");
    ("title", JStr "Countess");
    ("emails", JList [ email_candidate (JStr "ada@lovelace.example") "verified" "email" ]);
    ("phone_numbers",
      JList [ phone_candidate (JStr "+1 555 0102") (JStr "+15550102") "mobile" "verified" ]);
    ("organization", acme) ].

(** A matched person whose verified mobile entry has an empty number. *)
Definition empty_mobile : dict :=
  [ ("id", JStr "p-2");
    ("linkedin_url", JStr "http://www.linkedin.com/in/bob");
    ("phone_numbers",
      JList [ JObj [ ("label", JStr "mobile"); ("status", JStr "verified");
                     ("number", JStr "") ] ]) ].

(** A person whose verified mobile entry has an empty sanitized number
    next to a raw number. *)
Definition empty_sanitized : dict :=
  [ ("phone_numbers",
      JList [ phone_candidate (JStr "+1 555 0103") (JStr "") "mobile" "verified" ]) ].

(** The three email candidates of the spec's example. *)
Definition three_emails (e1 e2 e3 : json) : list json :=
  [ email_candidate e1 "unverified" "work";
    email_candidate e2 "verified" "personal";
    email_candidate e3 "verified" "work" ].

Definition person_body (p : dict) : http_outcome := HttpOk [("person", JObj p)].

Definition match_only : list (string * json) -> string -> json -> http_outcome :=
  post_with (person_body with_mobile) (HttpFail "unreachable" None).

Definition match_down : list (string * json) -> string -> json -> http_outcome :=
  post_with (HttpFail "503 Server Error" (Some 503)) (HttpFail "unreachable" None).

Definition enrich_down : list (string * json) -> string -> json -> http_outcome :=
  post_with (person_body without_mobile) (HttpFail "Read timed out." None).

Definition enrich_up : list (string * json) -> string -> json -> http_outcome :=
  post_with (person_body without_mobile) (person_body enriched).

Definition empty_mobile_net : list (string * json) -> string -> json -> http_outcome :=
  post_with (person_body empty_mobile) (HttpOk [("person", JNull)]).

(** A vendor off the data model: the matched person's organization is
    null. *)
Definition null_organization_net : list (string * json) -> string -> json -> http_outcome :=
  post_with (person_body [("first_name", JStr "Ada"); ("organization", JNull)])
    (HttpFail "unreachable" None).

(** A table whose first row has no url, on a disk of its own. *)
Definition late_rows : list (list string) :=
  [ ["Bob"; ""]; ["Ada"; url]; ["Eve"; url] ].

Definition late_disk (path : string) : option csv_table :=
  if (path =? "input.csv")%string then Some (mkTable (Some ["name"; "linkedin_url"]) late_rows)
  else None.

(** A three-row table; the last row stops before the url column. *)
Definition names : list string := ["name"; "linkedin_url"].

Definition table_rows : list (list string) :=
  [ ["Ada"; url]; ["Bob"; ""]; ["Eve"] ].

Definition disk (path : string) : option csv_table :=
  if (path =? "input.csv")%string then Some (mkTable (Some names) table_rows) else None.

(** The states and values along the sample runs. *)
Definition after_match (post : list (string * json) -> string -> json -> http_outcome)
  : world := snd (match_by_linkedin post (JStr url) world0).

Definition match_record (post : list (string * json) -> string -> json -> http_outcome)
    (p : dict) : dict :=
  value_or [] (_extract_all (JObj p) (after_match post)).

Definition after_match_extract
    (post : list (string * json) -> string -> json -> http_outcome) (p : dict) : world :=
  snd (_extract_all (JObj p) (after_match post)).

Definition after_enrich
    (post : list (string * json) -> string -> json -> http_outcome) (p : dict) : world :=
  snd (enrich_person post (JObj p) (after_match_extract post p)).

Definition enrich_reply
    (post : list (string * json) -> string -> json -> http_outcome) (p : dict) : dict :=
  value_or [] (enrich_person post (JObj p) (after_match_extract post p)).

End Sample.

(** A url cell as [csv.DictReader] hands it over: text, or [None] when the
    row is too short. *)
Definition cell_value (v : json) : Prop := v = JNull \/ exists s, v = JStr s.

(** The disk after the batch wrote [results] to [path]: the header and one
    row per record for "csv", the array of records for "json", nothing for
    any other format. *)
Definition output_written (py_repr : json -> string)
    (path fmt : string) (results : list dict) (w : world) : world :=
  if (fmt =? "csv")%string then
    write_file path
      (CsvFile OUTPUT_FIELDNAMES
         (map (fun r => map (csv_field py_repr) (_dict_to_list r)) results)) w
  else if (fmt =? "json")%string then
    write_file path (JsonFile (JList (map JObj results))) w
  else w.

(* ================================================================== *)
(** ** The paths of a lookup *)
(* ================================================================== *)

(** The client state after the match request and after the enrich
    request: one credit charged, one request logged. *)
Definition matched_world (u : string) (w : world) : world :=
  log_call match_url (match_payload u) (with_credits bump_match w).

Definition enriched_world (payload : json) (w : world) : world :=
  log_call enrich_url payload (with_credits bump_enrich w).

(** Every way a lookup can end, with the record it returns or the
    exception it lets through, and the client state it leaves. *)
Inductive lookup_outcome (url : json) (w : world) : outcome dict * world -> Prop :=
| lo_empty :
    Py.truthy url = false ->
    lookup_outcome url w (Ret (failure_record JNull "Empty LinkedIn URL."), w)
| lo_bad_url :
    Py.truthy url = true ->
    (forall u, url <> JStr u) ->
    lookup_outcome url w (Raise Py.AttributeError, w)
| lo_unmatched : forall u msg,
    url = JStr u -> u <> "" ->
    lookup_outcome url w (Ret (failure_record url msg), matched_world u w)
| lo_match_raise : forall u e w2,
    url = JStr u -> u <> "" ->
    contact_only (matched_world u w) w2 ->
    e = Py.AttributeError \/ e = Py.TypeError ->
    lookup_outcome url w (Raise e, w2)
| lo_match : forall u p em mo w2,
    url = JStr u -> u <> "" ->
    contact_only (matched_world u w) w2 ->
    Py.truthy mo = true ->
    lookup_outcome url w
      (Ret (Py.set "lookup_used" (JStr "match") (extracted_record p em mo)), w2)
| lo_enrich_failed : forall u p em mo w2 payload msg,
    url = JStr u -> u <> "" ->
    contact_only (matched_world u w) w2 ->
    Py.truthy mo = false ->
    lookup_outcome url w
      (Ret (Py.set "apollo_error" (JStr msg)
              (Py.set "lookup_used" (JStr "enrich") (extracted_record p em mo))),
       enriched_world payload w2)
| lo_enrich_raise : forall u w2 payload e w4,
    url = JStr u -> u <> "" ->
    contact_only (matched_world u w) w2 ->
    contact_only (enriched_world payload w2) w4 ->
    e = Py.AttributeError \/ e = Py.TypeError ->
    lookup_outcome url w (Raise e, w4)
| lo_enrich_fresh : forall u w2 payload q em mo w4,
    url = JStr u -> u <> "" ->
    contact_only (matched_world u w) w2 ->
    contact_only (enriched_world payload w2) w4 ->
    lookup_outcome url w
      (Ret (Py.set "input_linkedin_url" url
              (Py.set "lookup_used" (JStr "enrich") (extracted_record q em mo))),
       w4).

(** Requests that no match or enrich credit accounts for. *)
Definition unbilled (w : world) : Z :=
  Z.of_nat (length (calls w)) - (match_credits (credits w) + enrich_credits (credits w)).

(** Values a [for] loop cannot iterate over. *)
Definition not_iterable (v : json) : bool :=
  match v with
  | JNull | JBool _ | JInt _ => true
  | _ => false
  end.

(** A string made of white space only. *)
Fixpoint all_space (s : string) : bool :=
  match s with
  | EmptyString => true
  | String c rest => Py.is_space c && all_space rest
  end.



(** The urls of a table that are not empty. *)
Definition billable (urls : list json) : list json := filter Py.truthy urls.

(* ================================================================== *)
(** ** The constructor and the execution block *)
(* ================================================================== *)

(** [ApolloClient(api_key)]: a key is required; the counters of the new
    client start at 0. *)
Definition __init__ (api_key : json) : M unit :=
  if negb (Py.truthy api_key) then raise Py.ValueError
  else modify (with_credits (fun _ => CreditUsage0)).

(** How the script ends: it runs through, or it calls [exit]. *)
Inductive exit_status : Type :=
| Completed
| Exit (code : Z).

(** The [__main__] block; [getenv] is what [os.getenv("APOLLO_API_KEY")]
    gives. *)
Definition main
    (requests_post : list (string * json) -> string -> json -> http_outcome)
    (py_repr : json -> string)
    (read_csv : string -> option csv_table)
    (getenv : option string) : M exit_status :=
  let API_KEY := match getenv with Some k => JStr k | None => JNull end in
  if negb (Py.truthy API_KEY) then ret (Exit 1)
  else
    __init__ API_KEY ;;;
    let INPUT_CSV := "input.csv" in
    let OUTPUT_CSV := "apollo_output.csv" in
    process_csv requests_post py_repr read_csv INPUT_CSV OUTPUT_CSV "csv" "linkedin_url" ;;;
    ret Completed.

(* ================================================================== *)
(** ** Facts about dictionaries *)
(* ================================================================== *)

Module PyFacts.

Lemma lookup_set_same k v d : Py.lookup k (Py.set k v d) = Some v.
Proof.
  induction d as [|[k' v'] d IH]; simpl.
  - now rewrite String.eqb_refl.
  - destruct (k' =? k)%string eqn:E; simpl; rewrite E; auto.
Qed.

Lemma lookup_set_other k k' v d :
  k <> k' -> Py.lookup k' (Py.set k v d) = Py.lookup k' d.
Proof.
  intros Hne. induction d as [|[k0 v0] d IH]; simpl.
  - apply String.eqb_neq in Hne. now rewrite Hne.
  - destruct (k0 =? k)%string eqn:E; simpl.
    + apply String.eqb_eq in E. subst k0.
      apply String.eqb_neq in Hne. now rewrite Hne.
    + now rewrite IH.
Qed.

Lemma get_set_same k v d : Py.get (Py.set k v d) k = v.
Proof. unfold Py.get, Py.get_or. now rewrite lookup_set_same. Qed.

Lemma get_set_other k k' v d : k <> k' -> Py.get (Py.set k v d) k' = Py.get d k'.
Proof. intros H. unfold Py.get, Py.get_or. now rewrite lookup_set_other. Qed.

Lemma keys_set_mem k v d : Py.mem k d = true -> Py.keys (Py.set k v d) = Py.keys d.
Proof.
  unfold Py.mem, Py.keys. induction d as [|[k' v'] d IH]; simpl; [discriminate|].
  destruct (k' =? k)%string eqn:E; simpl; intros H; [reflexivity|].
  now rewrite IH.
Qed.

Lemma mem_keys k d : Py.mem k d = existsb (String.eqb k) (Py.keys d).
Proof.
  unfold Py.mem, Py.keys. induction d as [|[k' v'] d IH]; simpl; [reflexivity|].
  rewrite (String.eqb_sym k k'). destruct (k' =? k)%string; simpl; auto.
Qed.

Lemma truthy_str s : Py.truthy (JStr s) = true <-> s <> "".
Proof.
  simpl. destruct (s =? "")%string eqn:E; simpl.
  - apply String.eqb_eq in E. split; [discriminate | congruence].
  - apply String.eqb_neq in E. tauto.
Qed.

End PyFacts.

(* ================================================================== *)
(** ** The field extractor *)
(* ================================================================== *)

Section Extractor.

(** The email loop against first-match selection. *)
Lemma email_loop_spec (l : list json) (w : world) :
  forallb is_obj l = true ->
  email_loop l w
  = (Ret (field_of (find email_qualifies l) "email"),
     charge bump_email (is_some (find email_qualifies l)) w).
Proof.
  induction l as [|e l IH]; simpl; intros Hall; [reflexivity|].
  apply andb_true_iff in Hall as [He Hl].
  destruct e as [| | | | |d]; try discriminate.
  unfold bind; simpl.
  destruct (Py.eq_str (Py.get d "status") "verified"); simpl; [|now apply IH].
  destruct (Py.eq_str (Py.get d "type") "work" || Py.eq_str (Py.get d "type") "email");
    simpl; [reflexivity | now apply IH].
Qed.

(** The phone loop against first-match selection. *)
Lemma phone_loop_spec (l : list json) (w : world) :
  forallb is_obj l = true ->
  phone_loop l w
  = (Ret (let c := find phone_qualifies l in
          if Py.truthy (field_of c "sanitized_number")
          then field_of c "sanitized_number" else field_of c "number"),
     charge bump_mobile (is_some (find phone_qualifies l)) w).
Proof.
  induction l as [|e l IH]; simpl; intros Hall; [reflexivity|].
  apply andb_true_iff in Hall as [He Hl].
  destruct e as [| | | | |d]; try discriminate.
  unfold bind; simpl.
  destruct (Py.eq_str (Py.get d "label") "mobile"); simpl; [|now apply IH].
  destruct (Py.eq_str (Py.get d "status") "verified"); simpl; [|now apply IH].
  destruct (Py.truthy (Py.get d "sanitized_number")); reflexivity.
Qed.

Lemma candidates_obj (k : string) (p : dict) :
  obj_list_field k p = true ->
  Py.get_or p k (JList []) = JList (candidates k p)
  /\ forallb is_obj (candidates k p) = true.
Proof.
  unfold obj_list_field, candidates, Py.get_or.
  destruct (Py.lookup k p) as [[| | | |l|]|]; try discriminate; auto.
Qed.

Lemma extract_verified_email_spec (p : dict) (w : world) :
  obj_list_field "emails" p = true ->
  extract_verified_email (JObj p) w
  = (Ret (selected_email p), charge bump_email (has_email p) w).
Proof.
  intros H. destruct (candidates_obj _ _ H) as [Hget Hall].
  unfold extract_verified_email, bind; simpl. rewrite Hget; simpl.
  now rewrite (email_loop_spec _ _ Hall).
Qed.

Lemma extract_verified_mobile_spec (p : dict) (w : world) :
  obj_list_field "phone_numbers" p = true ->
  extract_verified_mobile (JObj p) w
  = (Ret (selected_mobile p), charge bump_mobile (has_phone p) w).
Proof.
  intros H. destruct (candidates_obj _ _ H) as [Hget Hall].
  unfold extract_verified_mobile, bind; simpl. rewrite Hget; simpl.
  now rewrite (phone_loop_spec _ _ Hall).
Qed.

Lemma person_schema_inv (p : dict) :
  person_schema p = true ->
  obj_list_field "emails" p = true
  /\ obj_list_field "phone_numbers" p = true
  /\ Py.get_or p "organization" (JObj []) = JObj (organization_of p).
Proof.
  unfold person_schema. intros H.
  apply andb_true_iff in H as [H Ho]. apply andb_true_iff in H as [He Hp].
  repeat split; auto.
  unfold obj_field in Ho. unfold organization_of, Py.get_or.
  destruct (Py.lookup "organization" p) as [[| | | | |o]|]; try discriminate; reflexivity.
Qed.

(** On a well-shaped person the extractor returns, and what it returns
    and charges is given by first-match selection. *)
Lemma _extract_all_spec (p : dict) (w : world) :
  person_schema p = true ->
  _extract_all (JObj p) w
  = (Ret (extracted_record p (selected_email p) (selected_mobile p)), after_extract p w).
Proof.
  intros H. destruct (person_schema_inv _ H) as (He & Hp & Ho).
  unfold _extract_all, bind; simpl. rewrite Ho; simpl.
  rewrite (extract_verified_email_spec _ _ He).
  rewrite (extract_verified_mobile_spec _ _ Hp).
  reflexivity.
Qed.

(** The loops touch nothing but their own counter, whatever they are
    given and however they end. *)
Lemma email_loop_frame (l : list json) (w : world) :
  snd (email_loop l w) = w \/ snd (email_loop l w) = with_credits bump_email w.
Proof.
  induction l as [|e l IH]; simpl; [now left|].
  destruct e as [| | | | |d]; try (now left).
  unfold bind; simpl.
  destruct (Py.eq_str (Py.get d "status") "verified"); simpl; [|exact IH].
  destruct (Py.eq_str (Py.get d "type") "work" || Py.eq_str (Py.get d "type") "email");
    simpl; [now right | exact IH].
Qed.

Lemma phone_loop_frame (l : list json) (w : world) :
  snd (phone_loop l w) = w \/ snd (phone_loop l w) = with_credits bump_mobile w.
Proof.
  induction l as [|e l IH]; simpl; [now left|].
  destruct e as [| | | | |d]; try (now left).
  unfold bind; simpl.
  destruct (Py.eq_str (Py.get d "label") "mobile"); simpl; [|exact IH].
  destruct (Py.eq_str (Py.get d "status") "verified"); simpl; [|exact IH].
  destruct (Py.truthy (Py.get d "sanitized_number")); now right.
Qed.

Lemma extract_verified_email_frame (person : json) (w : world) :
  snd (extract_verified_email person w) = w
  \/ snd (extract_verified_email person w) = with_credits bump_email w.
Proof.
  unfold extract_verified_email, bind.
  destruct person as [| | | | |p]; simpl; try (now left).
  destruct (Py.get_or p "emails" (JList [])); simpl; try (now left);
    apply email_loop_frame.
Qed.

Lemma extract_verified_mobile_frame (person : json) (w : world) :
  snd (extract_verified_mobile person w) = w
  \/ snd (extract_verified_mobile person w) = with_credits bump_mobile w.
Proof.
  unfold extract_verified_mobile, bind.
  destruct person as [| | | | |p]; simpl; try (now left).
  destruct (Py.get_or p "phone_numbers" (JList [])); simpl; try (now left);
    apply phone_loop_frame.
Qed.

(** What a returning [_extract_all] was given and did, for any input. *)
Lemma _extract_all_inv (person : json) (w w' : world) (ex : dict) :
  _extract_all person w = (Ret ex, w') ->
  exists p em mo wm,
    person = JObj p
    /\ Py.get_or p "organization" (JObj []) = JObj (organization_of p)
    /\ extract_verified_email person w = (Ret em, wm)
    /\ extract_verified_mobile person wm = (Ret mo, w')
    /\ ex = extracted_record p em mo.
Proof.
  unfold _extract_all, bind.
  destruct person as [| | | | |p]; simpl; try discriminate.
  destruct (Py.get_or p "organization" (JObj [])) as [| | | | |o] eqn:Ho;
    simpl; try discriminate.
  destruct (extract_verified_email (JObj p) w) as [[em|e] wm] eqn:He; try discriminate.
  destruct (extract_verified_mobile (JObj p) wm) as [[mo|e] wp] eqn:Hp; try discriminate.
  intros H. injection H as Hex Hw. subst.
  exists p, em, mo, wm. repeat split; auto.
  - unfold organization_of. now rewrite Ho.
  - unfold extracted_record, organization_of. now rewrite Ho.
Qed.

Lemma _extract_all_keys (person : json) (w w' : world) (ex : dict) :
  _extract_all person w = (Ret ex, w') -> Py.keys ex = OUTPUT_FIELDNAMES.
Proof.
  intros H. apply _extract_all_inv in H as (p & em & mo & wm & _ & _ & _ & _ & ->).
  reflexivity.
Qed.

Lemma _extract_all_frame (person : json) (w w' : world) (ex : dict) :
  _extract_all person w = (Ret ex, w') -> contact_only w w'.
Proof.
  intros H. apply _extract_all_inv in H as (p & em & mo & wm & _ & _ & He & Hp & _).
  pose proof (extract_verified_email_frame person w) as Fe.
  pose proof (extract_verified_mobile_frame person wm) as Fp.
  rewrite He in Fe. rewrite Hp in Fp. simpl in Fe, Fp.
  unfold contact_only.
  destruct Fe as [-> | ->]; destruct Fp as [-> | ->]; simpl; repeat split; lia.
Qed.

(** After a successful extraction the enrichment request can be built:
    [enrich_person] reads the same fields of the same person. *)
Lemma enrich_person_payload (person : json) (w w' : world) (ex : dict) :
  _extract_all person w = (Ret ex, w') ->
  exists p, person = JObj p
    /\ Py.get ex "input_linkedin_url" = Py.get p "linkedin_url"
    /\ Py.get ex "linkedin_url" = Py.get p "linkedin_url"
    /\ Py.get ex "first_name" = Py.get p "first_name"
    /\ Py.get ex "last_name" = Py.get p "last_name"
    /\ Py.get ex "job_title" = Py.get p "title"
    /\ Py.get ex "company_name" = Py.get (organization_of p) "name"
    /\ Py.get ex "company_website" = Py.get (organization_of p) "website_url"
    /\ Py.get ex "industry" = Py.get (organization_of p) "industry"
    /\ Py.get ex "apollo_person_id" = Py.get p "id"
    /\ Py.get_or p "organization" (JObj []) = JObj (organization_of p).
Proof.
  intros H. apply _extract_all_inv in H as (p & em & mo & wm & -> & Ho & _ & _ & ->).
  exists p. repeat split; auto.
Qed.

End Extractor.

(* ================================================================== *)
(** ** The lookup workflow *)
(* ================================================================== *)

Section Workflow.

Variable requests_post : list (string * json) -> string -> json -> http_outcome.
Variable py_repr : json -> string.

(** Unfolding steps, named before the section's abbreviations take over the
    names of the functions. *)
Ltac open_lookup := unfold lookup_person.
Ltac open_match := unfold match_by_linkedin, bind, _post.
Ltac open_enrich := unfold enrich_person, bind, _post.

Abbreviation match_by_linkedin := (match_by_linkedin requests_post).
Abbreviation enrich_person := (enrich_person requests_post).
Abbreviation lookup_person := (lookup_person requests_post py_repr).
Abbreviation py_str := (py_str py_repr).

Lemma _empty_result_record (url : json) (msg : string) :
  _empty_result url msg = failure_record url msg.
Proof. reflexivity. Qed.

(** The match step never raises on a string: it charges one match credit
    and logs one request, and a transport failure comes back as a
    mapping with the key "error". *)
Lemma match_by_linkedin_run (u : string) (w : world) :
  exists m,
    match_by_linkedin (JStr u) w
    = (Ret m, log_call match_url (match_payload u) (with_credits bump_match w))
    /\ (forall e st,
          requests_post (calls w) match_url (match_payload u) = HttpFail e st ->
          Py.mem "error" m = true /\ Py.get m "error" = JStr e)
    /\ (forall b,
          requests_post (calls w) match_url (match_payload u) = HttpOk b -> m = b).
Proof.
  open_match; simpl.
  fold match_url. fold (match_payload u).
  eexists; split; [reflexivity|].
  split; intros; rewrite H; auto.
Qed.

Lemma match_by_linkedin_world (u : string) (w w1 : world) (m : dict) :
  match_by_linkedin (JStr u) w = (Ret m, w1) ->
  w1 = log_call match_url (match_payload u) (with_credits bump_match w).
Proof.
  destruct (match_by_linkedin_run u w) as (m' & E & _). rewrite E. congruence.
Qed.

Lemma subscript_mem (d : dict) (k : string) (w : world) :
  Py.mem k d = true -> subscript d k w = (Ret (Py.get d k), w).
Proof.
  unfold Py.mem, subscript, Py.get, Py.get_or.
  destruct (Py.lookup k d); [reflexivity | discriminate].
Qed.

(** The enrich step, once the person has been extracted from: it charges
    one enrich credit and logs one request. *)
Lemma enrich_person_run (person : json) (w0 w : world) (ex : dict) (w2 : world) :
  _extract_all person w0 = (Ret ex, w) ->
  exists en payload,
    enrich_person person w2
    = (Ret en, log_call enrich_url payload (with_credits bump_enrich w2))
    /\ (forall e st,
          requests_post (calls w2) enrich_url payload = HttpFail e st ->
          Py.mem "error" en = true /\ Py.get en "error" = JStr e)
    /\ (forall b, requests_post (calls w2) enrich_url payload = HttpOk b -> en = b).
Proof.
  intros H. apply _extract_all_inv in H as (p & em & mo & wm & -> & Ho & _).
  open_enrich; simpl. rewrite Ho; simpl.
  fold enrich_url.
  eexists; eexists; split; [reflexivity|].
  split; intros; rewrite H; auto.
Qed.

(** C6, as amended: for a null or an empty input url, [lookup_person]
    returns the record whose 13 fields are all null except
    [apollo_error = "Empty LinkedIn URL."]; [input_linkedin_url] is null
    in both cases.  No request is made and no credit is charged. *)
Theorem C6_empty_url_record (url : json) (w : world) :
  url = JNull \/ url = JStr "" ->
  lookup_person url w = (Ret (failure_record JNull "Empty LinkedIn URL."), w).
Proof. intros [-> | ->]; reflexivity. Qed.

(** The workflow when the match step brings no person. *)
Lemma lookup_person_unmatched (u : string) (w w1 : world) (m : dict) :
  u <> "" ->
  match_by_linkedin (JStr u) w = (Ret m, w1) ->
  Py.mem "error" m = true \/ Py.truthy (Py.get m "person") = false ->
  lookup_person (JStr u) w
  = (Ret (failure_record (JStr u)
            (if Py.mem "error" m
             then "MATCH API error: " ++ py_str (Py.get m "error")
             else "No match found.")), w1).
Proof.
  intros Hu Hm Hfail. apply PyFacts.truthy_str in Hu.
  open_lookup. rewrite Hu.
  cbv beta iota zeta delta [negb bind]. rewrite Hm; cbv beta iota.
  destruct (Py.mem "error" m) eqn:Hmem.
  - now rewrite (subscript_mem _ _ _ Hmem).
  - destruct Hfail as [Hfail | Hfail]; [discriminate|]. now rewrite Hfail.
Qed.

(** C7: for a non-empty input url whose match call comes back with an
    error or without a person payload, [lookup_person] returns the
    all-null record with the original url in [input_linkedin_url] and a
    message in [apollo_error]: "MATCH API error: <error>" (the text of
    the transport error when there was one) or "No match found.". *)
Theorem C7_match_failure_record (u : string) (w w1 : world) (m : dict) :
  u <> "" ->
  match_by_linkedin (JStr u) w = (Ret m, w1) ->
  Py.mem "error" m = true \/ Py.truthy (Py.get m "person") = false ->
  exists msg,
    lookup_person (JStr u) w = (Ret (failure_record (JStr u) msg), w1)
    /\ (msg = "MATCH API error: " ++ py_str (Py.get m "error")
        \/ msg = "No match found.")
    /\ (forall e st,
          requests_post (calls w) match_url (match_payload u) = HttpFail e st ->
          msg = "MATCH API error: " ++ e)
    /\ Py.get (failure_record (JStr u) msg) "input_linkedin_url" = JStr u
    /\ Py.get (failure_record (JStr u) msg) "apollo_error" <> JNull
    /\ (forall k, k <> "input_linkedin_url" -> k <> "apollo_error" ->
                  Py.get (failure_record (JStr u) msg) k = JNull).
Proof.
  intros Hu Hm Hfail.
  pose proof (lookup_person_unmatched _ _ _ _ Hu Hm Hfail) as Hlook.
  destruct (match_by_linkedin_run u w) as (m' & Hrun & Herr & _).
  assert (m' = m) by congruence. subst m'.
  eexists. split; [exact Hlook|].
  split; [destruct (Py.mem "error" m); auto|].
  split.
  { intros e st He. destruct (Herr _ _ He) as [-> ->]. reflexivity. }
  split; [reflexivity|]. split; [discriminate|].
  intros k H1 H2. unfold Py.get, Py.get_or, failure_record.
  cbn -[String.eqb].
  repeat match goal with
         | |- context [(?a =? k)%string] =>
             let E := fresh in
             destruct (a =? k)%string eqn:E;
             [apply String.eqb_eq in E; subst k; try congruence|]
         end; reflexivity.
Qed.

Lemma subscript_mobile (p : dict) (em mo v : json) (w : world) :
  subscript (Py.set "lookup_used" v (extracted_record p em mo)) "verified_mobile_phone" w
  = (Ret mo, w).
Proof. reflexivity. Qed.

(** The workflow up to the decision on the verified mobile phone. *)
Lemma lookup_person_matched (u : string) (w w1 w2 : world) (m ex : dict) :
  u <> "" ->
  match_by_linkedin (JStr u) w = (Ret m, w1) ->
  Py.mem "error" m = false ->
  Py.truthy (Py.get m "person") = true ->
  _extract_all (Py.get m "person") w1 = (Ret ex, w2) ->
  exists p em mo,
    Py.get m "person" = JObj p
    /\ ex = extracted_record p em mo
    /\ contact_only w1 w2
    /\ w1 = log_call match_url (match_payload u) (with_credits bump_match w)
    /\ lookup_person (JStr u) w
       = (if Py.truthy mo then ret (Py.set "lookup_used" (JStr "match") ex)
          else
            enrich <- enrich_person (JObj p) ;;
            if Py.mem "error" enrich then
              err <- subscript enrich "error" ;;
              ret (Py.set "apollo_error" (JStr ("Enrich error: " ++ py_str err))
                     (Py.set "lookup_used" (JStr "enrich")
                        (Py.set "lookup_used" (JStr "match") ex)))
            else if Py.truthy (Py.get enrich "person") then
              enriched <- _extract_all (Py.get enrich "person") ;;
              ret (Py.set "input_linkedin_url" (JStr u)
                     (Py.set "lookup_used" (JStr "enrich") enriched))
            else
              ret (Py.set "apollo_error" (JStr "No enrichment data returned.")
                     (Py.set "lookup_used" (JStr "enrich")
                        (Py.set "lookup_used" (JStr "match") ex)))) w2.
Proof.
  intros Hu Hm Hmem Hp Hex.
  apply PyFacts.truthy_str in Hu.
  pose proof (_extract_all_frame _ _ _ _ Hex) as Hframe.
  pose proof (match_by_linkedin_world _ _ _ _ Hm) as Hw1.
  pose proof Hex as Hinv.
  apply _extract_all_inv in Hinv as (p & em & mo & wm & Hperson & _ & _ & _ & ->).
  exists p, em, mo.
  split; [exact Hperson|]. split; [reflexivity|].
  split; [exact Hframe|]. split; [exact Hw1|].
  open_lookup. rewrite Hu.
  cbv beta iota zeta delta [negb bind].
  rewrite Hm; cbv beta iota. rewrite Hmem, Hp; cbv beta iota.
  rewrite Hex; cbv beta iota. rewrite subscript_mobile; cbv beta iota.
  rewrite Hperson. reflexivity.
Qed.

(** C1, as amended: on a non-empty url, when the match call succeeds
    with a person payload and the extraction of that person yields a
    verified mobile phone that is true in Python's sense (not null and
    not empty), [lookup_person] returns the match-extracted record with
    [lookup_used = "match"]; the only request made is the match request
    and the enrich-credit counter is unchanged. *)
Theorem C1_verified_mobile_stops_at_match
    (u : string) (w w1 w2 : world) (m ex : dict) :
  u <> "" ->
  match_by_linkedin (JStr u) w = (Ret m, w1) ->
  Py.mem "error" m = false ->
  Py.truthy (Py.get m "person") = true ->
  _extract_all (Py.get m "person") w1 = (Ret ex, w2) ->
  Py.truthy (Py.get ex "verified_mobile_phone") = true ->
  lookup_person (JStr u) w = (Ret (Py.set "lookup_used" (JStr "match") ex), w2)
  /\ Py.get (Py.set "lookup_used" (JStr "match") ex) "lookup_used" = JStr "match"
  /\ (forall k, k <> "lookup_used" ->
                Py.get (Py.set "lookup_used" (JStr "match") ex) k = Py.get ex k)
  /\ calls w2 = (calls w ++ [(match_url, match_payload u)])%list
  /\ enrich_credits (credits w2) = enrich_credits (credits w).
Proof.
  intros Hu Hm Hmem Hp Hex Hmob.
  destruct (lookup_person_matched _ _ _ _ _ _ Hu Hm Hmem Hp Hex)
    as (p & em & mo & Hperson & -> & Hframe & -> & Hlook).
  change (Py.truthy mo = true) in Hmob.
  rewrite Hlook, Hmob.
  destruct Hframe as (Hc & _ & _ & He & _).
  split; [reflexivity|]. split; [apply PyFacts.get_set_same|].
  split; [intros k Hk; now apply PyFacts.get_set_other|].
  split; [rewrite Hc | rewrite He]; reflexivity.
Qed.

(** C2: when the match step succeeds with a person payload, no verified
    mobile is found and the enrich step fails (an error, or a response
    with no person payload), [lookup_person] returns the record extracted
    from the match response, every field as extracted except
    [lookup_used = "enrich"] and [apollo_error], which holds a message. *)
Theorem C2_failed_enrich_keeps_match_record
    (u : string) (w w1 w2 w3 : world) (m ex en : dict) :
  u <> "" ->
  match_by_linkedin (JStr u) w = (Ret m, w1) ->
  Py.mem "error" m = false ->
  Py.truthy (Py.get m "person") = true ->
  _extract_all (Py.get m "person") w1 = (Ret ex, w2) ->
  Py.truthy (Py.get ex "verified_mobile_phone") = false ->
  enrich_person (Py.get m "person") w2 = (Ret en, w3) ->
  Py.mem "error" en = true \/ Py.truthy (Py.get en "person") = false ->
  exists msg,
    let r := Py.set "apollo_error" (JStr msg) (Py.set "lookup_used" (JStr "enrich") ex) in
    lookup_person (JStr u) w = (Ret r, w3)
    /\ (msg = "Enrich error: " ++ py_str (Py.get en "error")
        \/ msg = "No enrichment data returned.")
    /\ Py.get r "lookup_used" = JStr "enrich"
    /\ Py.get r "apollo_error" = JStr msg
    /\ (forall k, k <> "lookup_used" -> k <> "apollo_error" -> Py.get r k = Py.get ex k)
    /\ Py.keys r = OUTPUT_FIELDNAMES.
Proof.
  intros Hu Hm Hmem Hp Hex Hmob Hen Hfail.
  destruct (lookup_person_matched _ _ _ _ _ _ Hu Hm Hmem Hp Hex)
    as (p & em & mo & Hperson & -> & _ & _ & Hlook).
  change (Py.truthy mo = false) in Hmob.
  rewrite Hperson in Hen.
  assert (Hrec : forall msg,
    let r := Py.set "apollo_error" (JStr msg)
               (Py.set "lookup_used" (JStr "enrich") (extracted_record p em mo)) in
    Py.get r "lookup_used" = JStr "enrich"
    /\ Py.get r "apollo_error" = JStr msg
    /\ (forall k, k <> "lookup_used" -> k <> "apollo_error" ->
                  Py.get r k = Py.get (extracted_record p em mo) k)
    /\ Py.keys r = OUTPUT_FIELDNAMES).
  { intros msg r. split; [reflexivity|]. split; [reflexivity|]. split; [|reflexivity].
    intros k H1 H2. unfold r.
    rewrite PyFacts.get_set_other by congruence.
    now rewrite PyFacts.get_set_other by congruence. }
  rewrite Hlook, Hmob. unfold bind at 1. rewrite Hen.
  destruct (Py.mem "error" en) eqn:Herr.
  - exists ("Enrich error: " ++ py_str (Py.get en "error")).
    split; [|split; [now left | apply Hrec]].
    unfold bind. now rewrite (subscript_mem _ _ _ Herr).
  - destruct Hfail as [Hfail | Hfail]; [discriminate|].
    exists "No enrichment data returned.".
    split; [|split; [now right | apply Hrec]].
    now rewrite Hfail.
Qed.

(** C3: when the match step succeeds without a verified mobile number and
    the enrich step returns a person payload, [lookup_person] returns the
    record freshly extracted from the enriched person, with
    [lookup_used = "enrich"] and [input_linkedin_url] equal to the
    original input url, whatever [linkedin_url] the enriched person
    carries. *)
Theorem C3_enrich_success_fresh_record
    (u : string) (w w1 w2 w3 : world) (m ex en q : dict) :
  u <> "" ->
  match_by_linkedin (JStr u) w = (Ret m, w1) ->
  Py.mem "error" m = false ->
  Py.truthy (Py.get m "person") = true ->
  _extract_all (Py.get m "person") w1 = (Ret ex, w2) ->
  Py.truthy (Py.get ex "verified_mobile_phone") = false ->
  enrich_person (Py.get m "person") w2 = (Ret en, w3) ->
  Py.mem "error" en = false ->
  Py.get en "person" = JObj q ->
  q <> [] ->
  person_schema q = true ->
  let fresh := extracted_record q (selected_email q) (selected_mobile q) in
  let r := Py.set "input_linkedin_url" (JStr u) (Py.set "lookup_used" (JStr "enrich") fresh) in
  _extract_all (JObj q) w3 = (Ret fresh, after_extract q w3)
  /\ lookup_person (JStr u) w = (Ret r, after_extract q w3)
  /\ Py.get r "lookup_used" = JStr "enrich"
  /\ Py.get r "input_linkedin_url" = JStr u
  /\ Py.get r "linkedin_url" = Py.get q "linkedin_url"
  /\ (forall k, k <> "lookup_used" -> k <> "input_linkedin_url" ->
                Py.get r k = Py.get fresh k).
Proof.
  intros Hu Hm Hmem Hp Hex Hmob Hen Herr Hq Hne Hschema fresh r.
  destruct (lookup_person_matched _ _ _ _ _ _ Hu Hm Hmem Hp Hex)
    as (p & em & mo & Hperson & -> & _ & _ & Hlook).
  change (Py.truthy mo = false) in Hmob.
  rewrite Hperson in Hen.
  pose proof (_extract_all_spec q w3 Hschema) as Hfresh. fold fresh in Hfresh.
  split; [exact Hfresh|].
  split.
  - rewrite Hlook, Hmob. unfold bind at 1. rewrite Hen, Herr, Hq.
    assert (Ht : Py.truthy (JObj q) = true) by (destruct q; [congruence | reflexivity]).
    rewrite Ht. unfold bind. now rewrite Hfresh.
  - split; [reflexivity|]. split; [reflexivity|]. split; [reflexivity|].
    intros k H1 H2. unfold r.
    rewrite PyFacts.get_set_other by congruence.
    now rewrite PyFacts.get_set_other by congruence.
Qed.

End Workflow.

(* ================================================================== *)
(** ** Sample runs of the workflow *)
(* ================================================================== *)

(** C6 at an absent url cell. *)
Lemma C6_empty_url_witness :
  lookup_person Sample.match_only Sample.repr JNull world0
  = (Ret (failure_record JNull "Empty LinkedIn URL."), world0).
Proof.
  apply (C6_empty_url_record Sample.match_only Sample.repr JNull world0).
  left; reflexivity.
Defined.

(** C6 as the spec words it fails at the empty string: the record carries
    null, not the empty string that was given. *)
Lemma C6_empty_string_not_carried :
  lookup_person Sample.match_only Sample.repr (JStr "") world0
  = (Ret (failure_record JNull "Empty LinkedIn URL."), world0)
  /\ Py.get (failure_record JNull "Empty LinkedIn URL.") "input_linkedin_url" <> JStr "".
Proof. split; [reflexivity | discriminate]. Qed.

(** C7 at a match request that fails in transport. *)
Lemma C7_match_failure_witness :
  lookup_person Sample.match_down Sample.repr (JStr Sample.url) world0
  = (Ret (failure_record (JStr Sample.url) "MATCH API error: 503 Server Error"),
     Sample.after_match Sample.match_down).
Proof.
  destruct (C7_match_failure_record Sample.match_down Sample.repr Sample.url world0
              (Sample.after_match Sample.match_down)
              [("error", JStr "503 Server Error"); ("status_code", JInt 503)])
    as (msg & Hrun & _ & Hmsg & _).
  - discriminate.
  - reflexivity.
  - left; reflexivity.
  - rewrite Hrun. rewrite (Hmsg "503 Server Error" (Some 503) eq_refl). reflexivity.
Defined.

(** C1 at a matched person with a verified mobile number. *)
Lemma C1_verified_mobile_witness :
  lookup_person Sample.match_only Sample.repr (JStr Sample.url) world0
  = (Ret (Py.set "lookup_used" (JStr "match")
            (Sample.match_record Sample.match_only Sample.with_mobile)),
     Sample.after_match_extract Sample.match_only Sample.with_mobile)
  /\ Py.get (Sample.match_record Sample.match_only Sample.with_mobile)
       "verified_mobile_phone" = JStr "+15550101"
  /\ calls (Sample.after_match_extract Sample.match_only Sample.with_mobile)
     = [(match_url, match_payload Sample.url)]
  /\ enrich_credits (credits (Sample.after_match_extract Sample.match_only Sample.with_mobile))
     = enrich_credits (credits world0).
Proof.
  destruct (C1_verified_mobile_stops_at_match Sample.match_only Sample.repr Sample.url
              world0 (Sample.after_match Sample.match_only)
              (Sample.after_match_extract Sample.match_only Sample.with_mobile)
              [("person", JObj Sample.with_mobile)]
              (Sample.match_record Sample.match_only Sample.with_mobile))
    as (Hrun & _ & _ & Hcalls & Hcredits).
  - discriminate.
  - reflexivity.
  - reflexivity.
  - reflexivity.
  - reflexivity.
  - reflexivity.
  - split; [exact Hrun|]. split; [reflexivity|].
    split; [exact Hcalls | exact Hcredits].
Defined.

(** C1 as the spec words it fails when the verified mobile entry holds an
    empty number: the extraction yields the empty string, which is not
    null, and yet the enrich request is made and charged. *)
Lemma C1_empty_number_still_enriches :
  let post := Sample.empty_mobile_net in
  let run := lookup_person post Sample.repr (JStr Sample.url) world0 in
  match_by_linkedin post (JStr Sample.url) world0
  = (Ret [("person", JObj Sample.empty_mobile)], Sample.after_match post)
  /\ Py.get (Sample.match_record post Sample.empty_mobile) "verified_mobile_phone" = JStr ""
  /\ JStr "" <> JNull
  /\ returned_field "lookup_used" run = Some (JStr "enrich")
  /\ map fst (calls (snd run)) = [match_url; enrich_url]
  /\ enrich_credits (credits (snd run)) = enrich_credits (credits world0) + 1.
Proof. repeat split; try reflexivity; discriminate. Qed.

(** C2 at an enrich request that times out. *)
Lemma C2_failed_enrich_witness :
  let post := Sample.enrich_down in
  let ex := Sample.match_record post Sample.without_mobile in
  let r := Py.set "apollo_error" (JStr "Enrich error: Read timed out.")
             (Py.set "lookup_used" (JStr "enrich") ex) in
  lookup_person post Sample.repr (JStr Sample.url) world0
  = (Ret r, Sample.after_enrich post Sample.without_mobile)
  /\ Py.get r "company_name" = JStr "Acme"
  /\ Py.get r "first_name" = JStr "Ada"
  /\ Py.get r "job_title" = JStr "Analyst".
Proof.
  intros post ex r.
  destruct (C2_failed_enrich_keeps_match_record post Sample.repr Sample.url
              world0 (Sample.after_match post)
              (Sample.after_match_extract post Sample.without_mobile)
              (Sample.after_enrich post Sample.without_mobile)
              [("person", JObj Sample.without_mobile)] ex
              (Sample.enrich_reply post Sample.without_mobile))
    as (msg & Hrun & [Hmsg | Hmsg] & _).
  - discriminate.
  - reflexivity.
  - reflexivity.
  - reflexivity.
  - reflexivity.
  - reflexivity.
  - reflexivity.
  - left; reflexivity.
  - subst msg. split; [exact Hrun | repeat split].
  - exfalso. subst msg. cbv zeta in Hrun.
    assert (H : returned_field "apollo_error"
                  (lookup_person post Sample.repr (JStr Sample.url) world0)
                = Some (JStr "No enrichment data returned."))
      by (rewrite Hrun; reflexivity).
    vm_compute in H. discriminate H.
Defined.

(** C3 at an enrichment whose person carries another url than the one
    asked for. *)
Lemma C3_enrich_success_witness :
  let post := Sample.enrich_up in
  let fresh := extracted_record Sample.enriched
                 (selected_email Sample.enriched) (selected_mobile Sample.enriched) in
  let r := Py.set "input_linkedin_url" (JStr Sample.url)
             (Py.set "lookup_used" (JStr "enrich") fresh) in
  lookup_person post Sample.repr (JStr Sample.url) world0
  = (Ret r, after_extract Sample.enriched (Sample.after_enrich post Sample.without_mobile))
  /\ Py.get r "input_linkedin_url" = JStr Sample.url
  /\ Py.get Sample.enriched "linkedin_url" <> JStr Sample.url.
Proof.
  intros post fresh r.
  destruct (C3_enrich_success_fresh_record post Sample.repr Sample.url
              world0 (Sample.after_match post)
              (Sample.after_match_extract post Sample.without_mobile)
              (Sample.after_enrich post Sample.without_mobile)
              [("person", JObj Sample.without_mobile)]
              (Sample.match_record post Sample.without_mobile)
              (Sample.enrich_reply post Sample.without_mobile)
              Sample.enriched)
    as (_ & Hrun & _ & Hurl & _).
  - discriminate.
  - reflexivity.
  - reflexivity.
  - reflexivity.
  - reflexivity.
  - reflexivity.
  - reflexivity.
  - reflexivity.
  - reflexivity.
  - discriminate.
  - reflexivity.
  - split; [exact Hrun | split; [exact Hurl | discriminate]].
Defined.

(* ================================================================== *)
(** ** First-match selection *)
(* ================================================================== *)

Section FirstMatch.

Context {A : Type} (f : A -> bool).

Lemma find_first (l pre post : list A) (x : A) :
  l = (pre ++ x :: post)%list ->
  Forall (fun y => f y = false) pre ->
  f x = true ->
  find f l = Some x.
Proof.
  intros -> Hpre Hx. induction Hpre as [|y pre Hy _ IH]; simpl.
  - now rewrite Hx.
  - now rewrite Hy.
Qed.

Lemma find_nothing (l : list A) :
  (forall x, In x l -> f x = false) -> find f l = None.
Proof.
  induction l as [|y l IH]; simpl; intros H; [reflexivity|].
  rewrite (H y (or_introl eq_refl)). apply IH. intros x Hx. apply H. now right.
Qed.

End FirstMatch.

(** C4: on a person whose [emails], when present, is a list of mappings,
    [extract_verified_email] returns the email of the first candidate in
    list order whose status equals "verified" and whose type is "work" or
    "email" (charging one email credit), and null when no candidate
    qualifies; on the three candidates unverified/work, verified/personal,
    verified/work it returns the email of the third. *)
Theorem C4_first_verified_email (p : dict) (w : world) :
  obj_list_field "emails" p = true ->
  (forall pre c post,
      candidates "emails" p = (pre ++ JObj c :: post)%list ->
      Forall (fun x => email_qualifies x = false) pre ->
      email_qualifies (JObj c) = true ->
      extract_verified_email (JObj p) w
      = (Ret (Py.get c "email"), with_credits bump_email w))
  /\ ((forall x, In x (candidates "emails" p) -> email_qualifies x = false) ->
      extract_verified_email (JObj p) w = (Ret JNull, w))
  /\ (forall e1 e2 e3,
      candidates "emails" p = Sample.three_emails e1 e2 e3 ->
      extract_verified_email (JObj p) w = (Ret e3, with_credits bump_email w)).
Proof.
  intros Hshape. rewrite (extract_verified_email_spec p w Hshape).
  unfold selected_email, has_email, first_email.
  split; [|split].
  - intros pre c post Hl Hpre Hc. now rewrite (find_first _ _ _ _ _ Hl Hpre Hc).
  - intros Hnone. now rewrite (find_nothing _ _ Hnone).
  - intros e1 e2 e3 ->. reflexivity.
Qed.

(** C4 on a person holding the three candidates of the example. *)
Lemma C4_first_verified_email_witness :
  extract_verified_email
    (JObj [("emails", JList (Sample.three_emails (JStr "a@x") (JStr "b@x") (JStr "c@x")))])
    world0
  = (Ret (JStr "c@x"), with_credits bump_email world0).
Proof.
  apply (proj2 (proj2 (C4_first_verified_email
           [("emails", JList (Sample.three_emails (JStr "a@x") (JStr "b@x") (JStr "c@x")))]
           world0 eq_refl)) (JStr "a@x") (JStr "b@x") (JStr "c@x")).
  reflexivity.
Defined.

(** C5, as amended: on a person whose [phone_numbers], when present, is a
    list of mappings, [extract_verified_mobile] takes the first candidate
    in list order whose label equals "mobile" and whose status equals
    "verified" (charging one mobile credit) and returns its
    [sanitized_number] when that is true in Python's sense (present, not
    null, not empty), its [number] otherwise; it returns null when no
    candidate qualifies. *)
Theorem C5_first_verified_mobile (p : dict) (w : world) :
  obj_list_field "phone_numbers" p = true ->
  (forall pre c post,
      candidates "phone_numbers" p = (pre ++ JObj c :: post)%list ->
      Forall (fun x => phone_qualifies x = false) pre ->
      phone_qualifies (JObj c) = true ->
      extract_verified_mobile (JObj p) w
      = (Ret (if Py.truthy (Py.get c "sanitized_number")
              then Py.get c "sanitized_number" else Py.get c "number"),
         with_credits bump_mobile w))
  /\ ((forall x, In x (candidates "phone_numbers" p) -> phone_qualifies x = false) ->
      extract_verified_mobile (JObj p) w = (Ret JNull, w)).
Proof.
  intros Hshape. rewrite (extract_verified_mobile_spec p w Hshape).
  unfold selected_mobile, has_phone, first_phone.
  split.
  - intros pre c post Hl Hpre Hc. now rewrite (find_first _ _ _ _ _ Hl Hpre Hc).
  - intros Hnone. now rewrite (find_nothing _ _ Hnone).
Qed.

(** C5 on a person whose second phone entry is the first verified mobile. *)
Lemma C5_first_verified_mobile_witness :
  extract_verified_mobile (JObj Sample.with_mobile) world0
  = (Ret (JStr "+15550101"), with_credits bump_mobile world0).
Proof.
  apply (proj1 (C5_first_verified_mobile Sample.with_mobile world0 eq_refl)
           [phone_candidate (JStr "+1 555 0100") (JStr "+15550100") "work" "verified"]
           [ ("number", JStr "+1 555 0101"); ("sanitized_number", JStr "+15550101");
             ("label", JStr "mobile"); ("status", JStr "verified") ]
           []).
  - reflexivity.
  - repeat constructor.
  - reflexivity.
Defined.

(** C5 as the spec words it fails when the sanitized number is present but
    empty: both fields are there, and the raw number is returned. *)
Lemma C5_empty_sanitized_falls_back :
  candidates "phone_numbers" Sample.empty_sanitized
  = [ JObj [ ("number", JStr "+1 555 0103"); ("sanitized_number", JStr "");
             ("label", JStr "mobile"); ("status", JStr "verified") ] ]
  /\ extract_verified_mobile (JObj Sample.empty_sanitized) world0
     = (Ret (JStr "+1 555 0103"), with_credits bump_mobile world0)
  /\ JStr "+1 555 0103" <> JStr "".
Proof. repeat split; discriminate. Qed.

(* ================================================================== *)
(** ** Credits and urls along the two paths *)
(* ================================================================== *)

Lemma after_extract_credits (p : dict) (w : world) :
  email_credits (credits (after_extract p w))
  = email_credits (credits w) + b2z (has_email p)
  /\ mobile_credits (credits (after_extract p w))
     = mobile_credits (credits w) + b2z (has_phone p).
Proof.
  unfold after_extract, charge.
  destruct (has_email p), (has_phone p); simpl; lia.
Qed.

(** C10: on the short-circuit path, where the match extraction yields a
    verified mobile phone, the record's [input_linkedin_url] is the
    [linkedin_url] of the vendor's matched person, the same value as the
    record's [linkedin_url]; it is not set back to the input url, and a run
    exists where the two differ. *)
Theorem C10_short_circuit_keeps_vendor_url :
  (forall requests_post py_repr (u : string) (w w1 w2 : world) (m ex p : dict),
      u <> "" ->
      match_by_linkedin requests_post (JStr u) w = (Ret m, w1) ->
      Py.mem "error" m = false ->
      Py.get m "person" = JObj p ->
      p <> [] ->
      _extract_all (JObj p) w1 = (Ret ex, w2) ->
      Py.truthy (Py.get ex "verified_mobile_phone") = true ->
      exists r,
        lookup_person requests_post py_repr (JStr u) w = (Ret r, w2)
        /\ Py.get r "lookup_used" = JStr "match"
        /\ Py.get r "input_linkedin_url" = Py.get p "linkedin_url"
        /\ Py.get r "linkedin_url" = Py.get p "linkedin_url")
  /\ (let run := lookup_person Sample.match_only Sample.repr (JStr Sample.url) world0 in
      returned_field "lookup_used" run = Some (JStr "match")
      /\ returned_field "input_linkedin_url" run = returned_field "linkedin_url" run
      /\ returned_field "input_linkedin_url" run <> Some (JStr Sample.url)).
Proof.
  split.
  - intros post repr u w w1 w2 m ex p Hu Hm Hmem Hperson Hne Hex Hmob.
    assert (Hp : Py.truthy (Py.get m "person") = true).
    { rewrite Hperson. destruct p; [congruence | reflexivity]. }
    rewrite <- Hperson in Hex.
    destruct (lookup_person_matched post repr _ _ _ _ _ _ Hu Hm Hmem Hp Hex)
      as (p' & em & mo & Hperson' & -> & _ & _ & Hlook).
    assert (p' = p) by congruence. subst p'.
    change (Py.truthy mo = true) in Hmob.
    rewrite Hlook, Hmob.
    eexists. split; [reflexivity|]. repeat split.
  - repeat split. vm_compute. discriminate.
Qed.

(** C10 at a matched person whose echoed url is not the input url. *)
Lemma C10_short_circuit_witness :
  exists r,
    lookup_person Sample.match_only Sample.repr (JStr Sample.url) world0
    = (Ret r, Sample.after_match_extract Sample.match_only Sample.with_mobile)
    /\ Py.get r "lookup_used" = JStr "match"
    /\ Py.get r "input_linkedin_url" = Py.get Sample.with_mobile "linkedin_url"
    /\ Py.get r "linkedin_url" = Py.get Sample.with_mobile "linkedin_url".
Proof.
  apply (proj1 C10_short_circuit_keeps_vendor_url Sample.match_only Sample.repr Sample.url
           world0 (Sample.after_match Sample.match_only)
           (Sample.after_match_extract Sample.match_only Sample.with_mobile)
           [("person", JObj Sample.with_mobile)]
           (Sample.match_record Sample.match_only Sample.with_mobile)
           Sample.with_mobile).
  - discriminate.
  - reflexivity.
  - reflexivity.
  - reflexivity.
  - discriminate.
  - reflexivity.
  - reflexivity.
Defined.

(** C9: on the path where enrichment is attempted and returns a person
    payload, the extraction runs on the match person and again on the
    enriched person; each run charges one email credit when it finds a
    qualifying email and one mobile credit when it finds a qualifying
    phone, so one lookup raises each counter by 0, 1 or 2, and a lookup
    exists that raises both by 2. *)
Theorem C9_two_extractions_per_lookup :
  (forall requests_post py_repr (u : string) (w w1 w3 : world) (m en p q : dict),
      u <> "" ->
      match_by_linkedin requests_post (JStr u) w = (Ret m, w1) ->
      Py.mem "error" m = false ->
      Py.get m "person" = JObj p ->
      p <> [] ->
      person_schema p = true ->
      Py.truthy (selected_mobile p) = false ->
      enrich_person requests_post (JObj p) (after_extract p w1) = (Ret en, w3) ->
      Py.mem "error" en = false ->
      Py.get en "person" = JObj q ->
      q <> [] ->
      person_schema q = true ->
      exists r w4,
        lookup_person requests_post py_repr (JStr u) w = (Ret r, w4)
        /\ _extract_all (JObj p) w1
           = (Ret (extracted_record p (selected_email p) (selected_mobile p)),
              after_extract p w1)
        /\ _extract_all (JObj q) w3
           = (Ret (extracted_record q (selected_email q) (selected_mobile q)), w4)
        /\ email_credits (credits w4)
           = email_credits (credits w) + b2z (has_email p) + b2z (has_email q)
        /\ mobile_credits (credits w4)
           = mobile_credits (credits w) + b2z (has_phone p) + b2z (has_phone q)
        /\ email_credits (credits w4) <= email_credits (credits w) + 2
        /\ mobile_credits (credits w4) <= mobile_credits (credits w) + 2)
  /\ (let run := lookup_person Sample.enrich_up Sample.repr (JStr Sample.url) world0 in
      returned_field "lookup_used" run = Some (JStr "enrich")
      /\ email_credits (credits (snd run)) = email_credits (credits world0) + 2
      /\ mobile_credits (credits (snd run)) = mobile_credits (credits world0) + 2).
Proof.
  split; [|repeat split].
  intros post repr u w w1 w3 m en p q Hu Hm Hmem Hperson Hne Hschema Hmob
         Hen Herr Hq Hqne Hqschema.
  assert (Hp : Py.truthy (Py.get m "person") = true).
  { rewrite Hperson. destruct p; [congruence | reflexivity]. }
  pose proof (_extract_all_spec p w1 Hschema) as Hex.
  pose proof (_extract_all_spec q w3 Hqschema) as Hfresh.
  pose proof Hex as Hex'. rewrite <- Hperson in Hex'.
  destruct (lookup_person_matched post repr _ _ _ _ _ _ Hu Hm Hmem Hp Hex')
    as (p' & em & mo & Hperson' & Hrec & _ & Hw1 & Hlook).
  assert (p' = p) by congruence. subst p'.
  assert (mo = selected_mobile p) by (unfold extracted_record in Hrec; congruence).
  subst mo.
  destruct (enrich_person_run post _ _ _ _ (after_extract p w1) Hex)
    as (en' & payload & Hrun & _).
  assert (Hw3 : w3 = log_call enrich_url payload
                       (with_credits bump_enrich (after_extract p w1))) by congruence.
  exists (Py.set "input_linkedin_url" (JStr u)
            (Py.set "lookup_used" (JStr "enrich")
               (extracted_record q (selected_email q) (selected_mobile q)))),
         (after_extract q w3).
  split.
  { rewrite Hlook, Hmob. unfold bind at 1. rewrite Hen, Herr, Hq.
    assert (Ht : Py.truthy (JObj q) = true) by (destruct q; [congruence | reflexivity]).
    rewrite Ht. unfold bind. now rewrite Hfresh. }
  split; [exact Hex|]. split; [exact Hfresh|].
  destruct (after_extract_credits q w3) as [Heq Hmq].
  destruct (after_extract_credits p w1) as [Hep Hmp].
  assert (He3 : email_credits (credits w3) = email_credits (credits (after_extract p w1)))
    by (rewrite Hw3; reflexivity).
  assert (Hm3 : mobile_credits (credits w3) = mobile_credits (credits (after_extract p w1)))
    by (rewrite Hw3; reflexivity).
  assert (He1 : email_credits (credits w1) = email_credits (credits w))
    by (rewrite Hw1; reflexivity).
  assert (Hm1 : mobile_credits (credits w1) = mobile_credits (credits w))
    by (rewrite Hw1; reflexivity).
  assert (Hb : forall b, 0 <= b2z b <= 1) by (intros []; simpl; lia).
  pose proof (Hb (has_email p)). pose proof (Hb (has_email q)).
  pose proof (Hb (has_phone p)). pose proof (Hb (has_phone q)).
  repeat split; lia.
Qed.

(** C9 at the sample enrichment: both persons carry a verified email and a
    verified mobile entry, and both counters go up by 2. *)
Lemma C9_two_extractions_witness :
  exists r w4,
    lookup_person Sample.enrich_up Sample.repr (JStr Sample.url) world0 = (Ret r, w4)
    /\ email_credits (credits w4) = 2
    /\ mobile_credits (credits w4) = 2.
Proof.
  destruct (proj1 C9_two_extractions_per_lookup Sample.enrich_up Sample.repr Sample.url
              world0 (Sample.after_match Sample.enrich_up)
              (Sample.after_enrich Sample.enrich_up Sample.without_mobile)
              [("person", JObj Sample.without_mobile)]
              (Sample.enrich_reply Sample.enrich_up Sample.without_mobile)
              Sample.without_mobile Sample.enriched)
    as (r & w4 & Hrun & _ & _ & He & Hm & _).
  - discriminate.
  - reflexivity.
  - reflexivity.
  - reflexivity.
  - discriminate.
  - reflexivity.
  - reflexivity.
  - reflexivity.
  - reflexivity.
  - reflexivity.
  - discriminate.
  - reflexivity.
  - exists r, w4. split; [exact Hrun|]. split; [exact He | exact Hm].
Defined.

(* ================================================================== *)
(** ** The batch processor *)
(* ================================================================== *)

Section Batch.

Variable requests_post : list (string * json) -> string -> json -> http_outcome.
Variable py_repr : json -> string.
Variable read_csv : string -> option csv_table.

Abbreviation lookup := (lookup_person requests_post py_repr).

Hypothesis vendor : vendor_ok requests_post.

(** A response that keeps to the data model either carries an error, or
    no person, or a well-shaped person. *)
Lemma response_ok_cases (b : dict) :
  response_ok b = true ->
  Py.mem "error" b = true
  \/ Py.truthy (Py.get b "person") = false
  \/ exists p, Py.get b "person" = JObj p /\ p <> [] /\ person_schema p = true.
Proof.
  unfold response_ok, person_ok. intros H.
  destruct (Py.mem "error" b); [now left | right]. simpl in H.
  destruct (Py.truthy (Py.get b "person")) eqn:Ht; [right | now left].
  simpl in H. destruct (Py.get b "person") as [| | | | |p]; try discriminate.
  exists p. repeat split; auto. intros ->. discriminate.
Qed.

(** Every reply of the network, a transport failure included, falls in
    one of these cases. *)
Lemma reply_cases (o : http_outcome) (m : dict) :
  (forall e st, o = HttpFail e st -> Py.mem "error" m = true /\ Py.get m "error" = JStr e) ->
  (forall b, o = HttpOk b -> m = b) ->
  (forall b, o = HttpOk b -> response_ok b = true) ->
  Py.mem "error" m = true
  \/ Py.truthy (Py.get m "person") = false
  \/ exists p, Py.get m "person" = JObj p /\ p <> [] /\ person_schema p = true.
Proof.
  intros Hfail Hok Hvendor. destruct o as [b | e st].
  - rewrite (Hok b eq_refl). apply response_ok_cases. now apply Hvendor.
  - left. now destruct (Hfail e st eq_refl).
Qed.

(** With a vendor that keeps to the data model, a lookup always returns,
    and what it returns has the 13 output fields, in order. *)
Lemma lookup_person_returns (url : json) (w : world) :
  cell_value url ->
  exists r w', lookup url w = (Ret r, w') /\ Py.keys r = OUTPUT_FIELDNAMES.
Proof.
  intros [-> | [u ->]].
  { eexists; eexists; split; reflexivity. }
  destruct (String.eqb_spec u "") as [-> | Hu].
  { eexists; eexists; split; reflexivity. }
  destruct (match_by_linkedin_run requests_post u w) as (m & Hm & Hfail & Hok).
  destruct (reply_cases _ m Hfail Hok (vendor _ _ _))
    as [Herr | [Hnone | (p & Hperson & Hne & Hschema)]].
  1,2: eexists; eexists; split;
       [apply (lookup_person_unmatched requests_post py_repr _ _ _ _ Hu Hm); auto
       | reflexivity].
  destruct (Py.mem "error" m) eqn:Hmem.
  { eexists; eexists; split;
      [apply (lookup_person_unmatched requests_post py_repr _ _ _ _ Hu Hm); auto
      | reflexivity]. }
  assert (Hp : Py.truthy (Py.get m "person") = true).
  { rewrite Hperson. destruct p; [congruence | reflexivity]. }
  pose proof (_extract_all_spec p
                (log_call match_url (match_payload u) (with_credits bump_match w))
                Hschema) as Hex.
  pose proof Hex as Hex'. rewrite <- Hperson in Hex'.
  destruct (lookup_person_matched requests_post py_repr _ _ _ _ _ _ Hu Hm Hmem Hp Hex')
    as (p' & em & mo & Hperson' & Hrec & _ & _ & Hlook).
  rewrite Hlook, Hrec. clear Hlook.
  assert (p' = p) by congruence. subst p'.
  destruct (Py.truthy mo).
  { eexists; eexists; split; reflexivity. }
  match type of Hex with _ = (_, ?w2) =>
    destruct (enrich_person_run requests_post _ _ _ _ w2 Hex)
      as (en & payload & Hen & Hefail & Heok)
  end.
  unfold bind at 1. rewrite Hen.
  destruct (reply_cases _ en Hefail Heok (vendor _ _ _))
    as [Herr | [Hnone | (q & Hq & Hqne & Hqschema)]].
  - rewrite Herr. unfold bind. rewrite (subscript_mem _ _ _ Herr).
    eexists; eexists; split; reflexivity.
  - destruct (Py.mem "error" en) eqn:Herr.
    + unfold bind. rewrite (subscript_mem _ _ _ Herr).
      eexists; eexists; split; reflexivity.
    + rewrite Hnone. eexists; eexists; split; reflexivity.
  - destruct (Py.mem "error" en) eqn:Herr.
    + unfold bind. rewrite (subscript_mem _ _ _ Herr).
      eexists; eexists; split; reflexivity.
    + rewrite Hq.
      assert (Ht : Py.truthy (JObj q) = true) by (destruct q; [congruence | reflexivity]).
      rewrite Ht. unfold bind. rewrite (_extract_all_spec q _ Hqschema).
      eexists; eexists; split; reflexivity.
Qed.

(** Every value of a row dict is a cell. *)
Lemma set_cells (k : string) (v : json) (d : dict) :
  cell_value v ->
  Forall (fun kv => cell_value (snd kv)) d ->
  Forall (fun kv => cell_value (snd kv)) (Py.set k v d).
Proof.
  intros Hv Hd. induction Hd as [|[k' v'] d Hk Hd IH]; simpl.
  - constructor; [exact Hv | constructor].
  - destruct (k' =? k)%string; constructor; auto.
Qed.

Lemma zip_row_cells (names : list string) (cells : list string) (d : dict) :
  Forall (fun kv => cell_value (snd kv)) d ->
  Forall (fun kv => cell_value (snd kv)) (zip_row names cells d).
Proof.
  revert cells d. induction names as [|n names IH]; intros cells d Hd.
  - destruct cells; exact Hd.
  - destruct cells as [|c cells].
    + cbn [zip_row]. clear IH. revert d Hd. generalize (n :: names). intros l.
      induction l as [|x l IHl]; intros d Hd; simpl; [exact Hd|].
      apply IHl. apply set_cells; [now left | exact Hd].
    + simpl. apply IH. apply set_cells; [right; now exists c | exact Hd].
Qed.

Lemma row_url_cell (names : list string) (column : string) (cells : list string) :
  cell_value (row_url names column cells).
Proof.
  unfold row_url, DictReader_row, Py.get, Py.get_or.
  pose proof (zip_row_cells names cells [] (Forall_nil _)) as H.
  induction H as [|[k v] d Hv _ IH]; simpl; [now left|].
  destruct (k =? column)%string; [exact Hv | exact IH].
Qed.

(** The row loop appends one record per row, each the lookup of that
    row's url in the state left by the rows before it. *)
Lemma process_rows_runs (names : list string) (column : string)
    (table_rows : list (list string)) :
  forall (acc : list dict) (w : world),
  exists results w',
    process_rows requests_post py_repr names column table_rows acc w
    = (Ret (acc ++ results)%list, w')
    /\ runs requests_post py_repr w (map (row_url names column) table_rows) results w'
    /\ Forall (fun r => Py.keys r = OUTPUT_FIELDNAMES) results.
Proof.
  induction table_rows as [|cells rest IH]; intros acc w.
  - exists [], w. simpl. rewrite app_nil_r.
    split; [reflexivity | split; constructor].
  - destruct (lookup_person_returns (row_url names column cells) w
                (row_url_cell names column cells)) as (r & w1 & Hr & Hkeys).
    destruct (IH (acc ++ [r])%list w1) as (rs & w' & Hrest & Hruns & Hall).
    exists (r :: rs), w'. split; [|split].
    + simpl. unfold bind. fold (row_url names column cells). rewrite Hr.
      rewrite Hrest. now rewrite <- app_assoc.
    + simpl. econstructor; eauto.
    + constructor; auto.
Qed.

Lemma runs_length (w w' : world) (urls : list json) (results : list dict) :
  runs requests_post py_repr w urls results w' -> length results = length urls.
Proof. induction 1; simpl; congruence. Qed.

(** Order: the record at position [i] is the lookup of the url at
    position [i]. *)
Lemma runs_nth (w w' : world) (urls : list json) (results : list dict) :
  runs requests_post py_repr w urls results w' ->
  forall i url, nth_error urls i = Some url ->
    exists r wi wi', nth_error results i = Some r /\ lookup url wi = (Ret r, wi').
Proof.
  induction 1 as [|w url0 r w1 urls rs w2 Hr _ IH]; intros i url Hi.
  - destruct i; discriminate.
  - destruct i as [|i]; simpl in *.
    + injection Hi as ->. eauto.
    + apply IH. exact Hi.
Qed.

(** Records with the 13 output fields go through the CSV writer whole. *)
Lemma writerows_all (results : list dict) :
  Forall (fun r => Py.keys r = OUTPUT_FIELDNAMES) results ->
  writerows py_repr results
  = (map (fun r => map (csv_field py_repr) (_dict_to_list r)) results, true).
Proof.
  induction 1 as [|r rs Hr _ IH]; simpl; [reflexivity|].
  unfold known_fields. rewrite Hr, IH. reflexivity.
Qed.

Lemma _write_output_written (results : list dict) (path fmt : string) (w : world) :
  Forall (fun r => Py.keys r = OUTPUT_FIELDNAMES) results ->
  _write_output py_repr results path fmt w
  = (Ret tt, output_written py_repr path fmt results w).
Proof.
  intros H. unfold _write_output, output_written. rewrite (writerows_all _ H).
  destruct (fmt =? "csv")%string; [reflexivity|].
  destruct (fmt =? "json")%string; reflexivity.
Qed.

(** C8, as amended: for every input table that has the url column, and a
    vendor that keeps to the data model, so that no lookup raises, the
    batch produces exactly one record per input row, in the order of the
    rows (the record at each position is the lookup of the url of the row
    at that position), and every record has exactly the 13 output fields,
    whichever path the lookup took; these records are what is written
    out. *)
Theorem C8_one_record_per_row
    (input_csv output_path output_format linkedin_column : string)
    (names : list string) (table_rows : list (list string)) (w : world) :
  read_csv input_csv = Some (mkTable (Some names) table_rows) ->
  In linkedin_column names ->
  exists results w',
    process_rows requests_post py_repr names linkedin_column table_rows [] w
    = (Ret results, w')
    /\ length results = length table_rows
    /\ runs requests_post py_repr w (map (row_url names linkedin_column) table_rows)
         results w'
    /\ (forall i cells, nth_error table_rows i = Some cells ->
          exists r wi wi',
            nth_error results i = Some r
            /\ lookup (row_url names linkedin_column cells) wi = (Ret r, wi'))
    /\ Forall (fun r => Py.keys r = OUTPUT_FIELDNAMES) results
    /\ process_csv requests_post py_repr read_csv
         input_csv output_path output_format linkedin_column w
       = (Ret tt, output_written py_repr output_path output_format results w').
Proof.
  intros Hfile Hcol.
  destruct (process_rows_runs names linkedin_column table_rows [] w)
    as (results & w' & Hrows & Hruns & Hall).
  simpl in Hrows.
  exists results, w'.
  split; [exact Hrows|].
  split; [rewrite (runs_length _ _ _ _ Hruns); apply length_map|].
  split; [exact Hruns|].
  split.
  { intros i cells Hi.
    apply (runs_nth _ _ _ _ Hruns i).
    now rewrite nth_error_map, Hi. }
  split; [exact Hall|].
  unfold process_csv. rewrite Hfile. cbv beta iota delta [fieldnames rows].
  assert (Hin : existsb (String.eqb linkedin_column) names = true).
  { apply existsb_exists. exists linkedin_column. split; [exact Hcol|].
    apply String.eqb_refl. }
  rewrite Hin. cbv beta iota delta [negb bind].
  rewrite Hrows. now apply _write_output_written.
Qed.

End Batch.

(** The sample network keeps to the data model. *)
Lemma sample_vendor_ok : vendor_ok Sample.enrich_up.
Proof.
  intros history request_url payload body.
  unfold Sample.enrich_up, Sample.post_with, Sample.person_body.
  destruct (request_url =? match_url)%string; intros [= <-]; reflexivity.
Qed.

(** C8 on the three-row sample table: a row that is enriched, a row with an
    empty url and a row that stops before the url column. *)
Lemma C8_one_record_per_row_witness :
  exists results w',
    process_rows Sample.enrich_up Sample.repr Sample.names "linkedin_url"
      Sample.table_rows [] world0 = (Ret results, w')
    /\ length results = 3%nat
    /\ Forall (fun r => Py.keys r = OUTPUT_FIELDNAMES) results
    /\ process_csv Sample.enrich_up Sample.repr Sample.disk
         "input.csv" "apollo_output.csv" "csv" "linkedin_url" world0
       = (Ret tt, output_written Sample.repr "apollo_output.csv" "csv" results w').
Proof.
  destruct (C8_one_record_per_row Sample.enrich_up Sample.repr Sample.disk
              sample_vendor_ok "input.csv" "apollo_output.csv" "csv" "linkedin_url"
              Sample.names Sample.table_rows world0)
    as (results & w' & Hrows & Hlen & _ & _ & Hkeys & Hcsv).
  - reflexivity.
  - simpl. right. left. reflexivity.
  - exists results, w'. repeat split; assumption.
Defined.

(** C8 as the spec words it fails when the vendor leaves the data model: on
    a matched person whose organization is null the lookup of the first row
    raises, nothing catches it, and the batch ends with no record at all
    and no file, although the table has the url column. *)
Lemma C8_null_organization_aborts_batch :
  let rows_run := process_rows Sample.null_organization_net Sample.repr Sample.names
                    "linkedin_url" Sample.table_rows [] world0 in
  let run := process_csv Sample.null_organization_net Sample.repr Sample.disk
               "input.csv" "apollo_output.csv" "csv" "linkedin_url" world0 in
  Sample.disk "input.csv" = Some (mkTable (Some Sample.names) Sample.table_rows)
  /\ In "linkedin_url" Sample.names
  /\ length Sample.table_rows = 3%nat
  /\ fst rows_run = Raise Py.AttributeError
  /\ returned rows_run = None
  /\ fst run = Raise Py.AttributeError
  /\ files (snd run) = [].
Proof.
  cbv zeta. split; [reflexivity|]. split; [simpl; tauto|].
  repeat split; reflexivity.
Qed.

(** Outside the data model the extractor raises: a person whose
    [organization] is null has no [get], and the exception leaves the
    lookup and the batch. *)
Lemma null_organization_raises (w : world) :
  _extract_all (JObj [("organization", JNull)]) w = (Raise Py.AttributeError, w).
Proof. reflexivity. Qed.

(* ================================================================== *)
(** ** What the extractor does on any input *)
(* ================================================================== *)

Lemma contact_only_refl (w : world) : contact_only w w.
Proof. unfold contact_only. repeat split; lia. Qed.

Lemma contact_only_email (w : world) : contact_only w (with_credits bump_email w).
Proof. unfold contact_only; simpl. repeat split; lia. Qed.

Lemma contact_only_mobile (w : world) : contact_only w (with_credits bump_mobile w).
Proof. unfold contact_only; simpl. repeat split; lia. Qed.

Lemma _extract_all_local (person : json) (w : world) :
  contact_only w (snd (_extract_all person w)).
Proof.
  unfold _extract_all, bind.
  destruct person as [| | | | |p]; simpl; try apply contact_only_refl.
  destruct (Py.get_or p "organization" (JObj [])) as [| | | | |o];
    simpl; try apply contact_only_refl.
  pose proof (extract_verified_email_frame (JObj p) w) as Fe.
  destruct (extract_verified_email (JObj p) w) as [[em|e] wm]; simpl in Fe.
  - pose proof (extract_verified_mobile_frame (JObj p) wm) as Fp.
    destruct (extract_verified_mobile (JObj p) wm) as [[mo|e] wp]; simpl in Fp |- *;
      unfold contact_only;
      destruct Fe as [-> | ->]; destruct Fp as [-> | ->]; simpl; repeat split; lia.
  - simpl. destruct Fe as [-> | ->];
      [apply contact_only_refl | apply contact_only_email].
Qed.

Lemma helper_local_of_frame (w w' : world) (bump : CreditUsage -> CreditUsage) :
  contact_only w (with_credits bump w) ->
  w' = w \/ w' = with_credits bump w ->
  contact_only w w'.
Proof. intros Hb [-> | ->]; [apply contact_only_refl | exact Hb]. Qed.

(** X1. The extraction is local: whatever person it is given and however
    it ends, each helper and [_extract_all] itself make no request, write
    no file and leave the match and enrich counters alone; the email helper
    leaves the mobile counter alone and the mobile helper the email
    counter, and each charges at most one credit. *)
Theorem extraction_is_local (person : json) (w : world) :
  let we := snd (extract_verified_email person w) in
  let wm := snd (extract_verified_mobile person w) in
  (contact_only w we /\ mobile_credits (credits we) = mobile_credits (credits w))
  /\ (contact_only w wm /\ email_credits (credits wm) = email_credits (credits w))
  /\ contact_only w (snd (_extract_all person w)).
Proof.
  cbv zeta. split; [|split].
  - pose proof (extract_verified_email_frame person w) as F.
    split; [exact (helper_local_of_frame _ _ _ (contact_only_email w) F)|].
    destruct F as [-> | ->]; reflexivity.
  - pose proof (extract_verified_mobile_frame person w) as F.
    split; [exact (helper_local_of_frame _ _ _ (contact_only_mobile w) F)|].
    destruct F as [-> | ->]; reflexivity.
  - apply _extract_all_local.
Qed.

(** X2. A verified email or mobile number never comes back without its credit:
    when an extraction helper returns anything but null, it has charged
    exactly one credit of its kind, on any input. *)
Theorem verified_contact_is_charged (person v : json) (w w' : world) :
  v <> JNull ->
  (extract_verified_email person w = (Ret v, w') -> w' = with_credits bump_email w)
  /\ (extract_verified_mobile person w = (Ret v, w') -> w' = with_credits bump_mobile w).
Proof.
  intros Hv. split.
  - unfold extract_verified_email, bind.
    destruct person as [| | | | |p]; simpl; try discriminate.
    destruct (iter (Py.get_or p "emails" (JList [])) w) as [[items|e] wi] eqn:Hi;
      [|discriminate].
    assert (wi = w).
    { destruct (Py.get_or p "emails" (JList [])); unfold iter, ret, raise in Hi; congruence. }
    subst wi. clear Hi.
    induction items as [|c items IH]; simpl; [intros [= E _]; now subst v|].
    unfold bind. destruct c as [| | | | |d]; simpl; try discriminate.
    destruct (Py.eq_str (Py.get d "status") "verified"); simpl; [|exact IH].
    destruct (Py.eq_str (Py.get d "type") "work" || Py.eq_str (Py.get d "type") "email");
      simpl; [|exact IH].
    intros [= _ <-]. reflexivity.
  - unfold extract_verified_mobile, bind.
    destruct person as [| | | | |p]; simpl; try discriminate.
    destruct (iter (Py.get_or p "phone_numbers" (JList [])) w) as [[items|e] wi] eqn:Hi;
      [|discriminate].
    assert (wi = w).
    { destruct (Py.get_or p "phone_numbers" (JList [])); unfold iter, ret, raise in Hi;
      congruence. }
    subst wi. clear Hi.
    induction items as [|c items IH]; simpl; [intros [= E _]; now subst v|].
    unfold bind. destruct c as [| | | | |d]; simpl; try discriminate.
    destruct (Py.eq_str (Py.get d "label") "mobile"); simpl; [|exact IH].
    destruct (Py.eq_str (Py.get d "status") "verified"); simpl; [|exact IH].
    destruct (Py.truthy (Py.get d "sanitized_number")); intros [= _ <-]; reflexivity.
Qed.

(** At the verified work email of the sample person. *)
Lemma verified_contact_is_charged_witness :
  snd (extract_verified_email (JObj Sample.without_mobile) world0)
  = with_credits bump_email world0.
Proof.
  apply (proj1 (verified_contact_is_charged (JObj Sample.without_mobile)
                  (JStr "ada@acme.example") world0
                  (snd (extract_verified_email (JObj Sample.without_mobile) world0))
                  ltac:(discriminate))).
  reflexivity.
Defined.

(** X3. A candidate list that is missing is an empty list; one that is null (or
    a boolean, or a number) is an error: the helper raises [TypeError]
    before it charges anything. *)
Theorem missing_list_is_empty_null_list_raises (p : dict) (w : world) :
  (Py.lookup "emails" p = None -> extract_verified_email (JObj p) w = (Ret JNull, w))
  /\ (Py.lookup "phone_numbers" p = None ->
      extract_verified_mobile (JObj p) w = (Ret JNull, w))
  /\ (forall v, Py.lookup "emails" p = Some v -> not_iterable v = true ->
      extract_verified_email (JObj p) w = (Raise Py.TypeError, w))
  /\ (forall v, Py.lookup "phone_numbers" p = Some v -> not_iterable v = true ->
      extract_verified_mobile (JObj p) w = (Raise Py.TypeError, w)).
Proof.
  unfold extract_verified_email, extract_verified_mobile, bind, attr_get_or, Py.get_or.
  repeat split.
  - intros H. rewrite H. reflexivity.
  - intros H. rewrite H. reflexivity.
  - intros v H Hv. rewrite H. destruct v; try discriminate; reflexivity.
  - intros v H Hv. rewrite H. destruct v; try discriminate; reflexivity.
Qed.

(** At a person whose [emails] is null. *)
Lemma null_list_raises_witness :
  extract_verified_email (JObj [("emails", JNull)]) world0 = (Raise Py.TypeError, world0).
Proof.
  apply (proj1 (proj2 (proj2
           (missing_list_is_empty_null_list_raises [("emails", JNull)] world0))) JNull);
    reflexivity.
Defined.

(** X4. An [organization] that is present but is not a mapping (null, for one)
    stops both the extractor and the enrich step with [AttributeError],
    before any credit is charged and before any request is made. *)
Theorem organization_must_be_mapping
    (requests_post : list (string * json) -> string -> json -> http_outcome)
    (p : dict) (v : json) (w : world) :
  Py.lookup "organization" p = Some v ->
  is_obj v = false ->
  _extract_all (JObj p) w = (Raise Py.AttributeError, w)
  /\ enrich_person requests_post (JObj p) w = (Raise Py.AttributeError, w).
Proof.
  intros Hv Hobj.
  unfold _extract_all, enrich_person, bind, Py.get_or; simpl.
  unfold Py.get_or. rewrite Hv.
  destruct v; try discriminate; split; reflexivity.
Qed.

(** At a person whose [organization] is null. *)
Lemma organization_must_be_mapping_witness :
  _extract_all (JObj [("first_name", JStr "Ada"); ("organization", JNull)]) world0
  = (Raise Py.AttributeError, world0).
Proof.
  apply (proj1 (organization_must_be_mapping Sample.enrich_up
                  [("first_name", JStr "Ada"); ("organization", JNull)] JNull world0
                  eq_refl eq_refl)).
Defined.

(** The exceptions the extractor can let through: a [get] on something
    that is no mapping, or a loop over something that cannot be iterated. *)
Lemma email_loop_raises (l : list json) (w : world) (e : Py.exn) :
  fst (email_loop l w) = Raise e -> e = Py.AttributeError.
Proof.
  induction l as [|c l IH]; simpl; [discriminate|].
  unfold bind. destruct c as [| | | | |d]; simpl; try (intros [= <-]; reflexivity).
  destruct (Py.eq_str (Py.get d "status") "verified"); simpl; [|exact IH].
  destruct (Py.eq_str (Py.get d "type") "work" || Py.eq_str (Py.get d "type") "email");
    simpl; [discriminate | exact IH].
Qed.

Lemma phone_loop_raises (l : list json) (w : world) (e : Py.exn) :
  fst (phone_loop l w) = Raise e -> e = Py.AttributeError.
Proof.
  induction l as [|c l IH]; simpl; [discriminate|].
  unfold bind. destruct c as [| | | | |d]; simpl; try (intros [= <-]; reflexivity).
  destruct (Py.eq_str (Py.get d "label") "mobile"); simpl; [|exact IH].
  destruct (Py.eq_str (Py.get d "status") "verified"); simpl; [|exact IH].
  destruct (Py.truthy (Py.get d "sanitized_number")); discriminate.
Qed.

Lemma extract_verified_email_raises (person : json) (w : world) (e : Py.exn) :
  fst (extract_verified_email person w) = Raise e ->
  e = Py.AttributeError \/ e = Py.TypeError.
Proof.
  unfold extract_verified_email, bind.
  destruct person as [| | | | |p]; simpl; try (intros [= <-]; now left).
  destruct (Py.get_or p "emails" (JList [])); simpl;
    try (intros [= <-]; now right);
    intros H; left; eapply email_loop_raises; exact H.
Qed.

Lemma extract_verified_mobile_raises (person : json) (w : world) (e : Py.exn) :
  fst (extract_verified_mobile person w) = Raise e ->
  e = Py.AttributeError \/ e = Py.TypeError.
Proof.
  unfold extract_verified_mobile, bind.
  destruct person as [| | | | |p]; simpl; try (intros [= <-]; now left).
  destruct (Py.get_or p "phone_numbers" (JList [])); simpl;
    try (intros [= <-]; now right);
    intros H; left; eapply phone_loop_raises; exact H.
Qed.

Lemma _extract_all_raises (person : json) (w : world) (e : Py.exn) :
  fst (_extract_all person w) = Raise e ->
  e = Py.AttributeError \/ e = Py.TypeError.
Proof.
  unfold _extract_all, bind.
  destruct person as [| | | | |p]; simpl; try (intros [= <-]; now left).
  destruct (Py.get_or p "organization" (JObj [])) as [| | | | |o];
    simpl; try (intros [= <-]; now left).
  pose proof (extract_verified_email_raises (JObj p) w) as He.
  destruct (extract_verified_email (JObj p) w) as [[em|e1] wm]; simpl in He |- *.
  - pose proof (extract_verified_mobile_raises (JObj p) wm) as Hp.
    destruct (extract_verified_mobile (JObj p) wm) as [[mo|e2] wp]; simpl in Hp |- *.
    + discriminate.
    + intros [= <-]. now apply Hp.
  - intros [= <-]. now apply He.
Qed.

(* ================================================================== *)
(** ** Every lookup follows one of the paths *)
(* ================================================================== *)

Section Outcomes.

Variable requests_post : list (string * json) -> string -> json -> http_outcome.
Variable py_repr : json -> string.

Ltac open_lookup := unfold lookup_person.

Abbreviation lookup := (lookup_person requests_post py_repr).

Lemma truthy_obj (q : dict) : Py.truthy (JObj q) = true -> q <> [].
Proof. destruct q; [discriminate | congruence]. Qed.

(** The classification: on any url, in any state, against any network. *)
Lemma lookup_person_outcome (url : json) (w : world) :
  lookup_outcome url w (lookup url w).
Proof.
  destruct (Py.truthy url) eqn:Hurl.
  2:{ replace (lookup url w)
        with (Ret (failure_record JNull "Empty LinkedIn URL."), w)
        by (open_lookup; now rewrite Hurl).
      now constructor. }
  destruct url as [| | | u | |];
    try (replace (lookup _ w) with (@Raise dict Py.AttributeError, w)
           by (open_lookup; rewrite Hurl; reflexivity);
         apply lo_bad_url; [exact Hurl | discriminate]).
  assert (Hu : u <> "") by now apply PyFacts.truthy_str.
  destruct (match_by_linkedin_run requests_post u w) as (m & Hm & _).
  fold (matched_world u w) in Hm.
  destruct (Py.mem "error" m) eqn:Hmem.
  { rewrite (lookup_person_unmatched requests_post py_repr _ _ _ _ Hu Hm (or_introl Hmem)).
    now apply lo_unmatched with (u := u). }
  destruct (Py.truthy (Py.get m "person")) eqn:Hp.
  2:{ rewrite (lookup_person_unmatched requests_post py_repr _ _ _ _ Hu Hm (or_intror Hp)).
      now apply lo_unmatched with (u := u). }
  pose proof (_extract_all_local (Py.get m "person") (matched_world u w)) as Hlocal.
  destruct (_extract_all (Py.get m "person") (matched_world u w)) as [[ex|e] w2] eqn:Hex;
    simpl in Hlocal.
  2:{ replace (lookup (JStr u) w) with (@Raise dict e, w2).
      - apply lo_match_raise with (u := u); auto.
        apply (_extract_all_raises (Py.get m "person") (matched_world u w)).
        now rewrite Hex.
      - open_lookup. rewrite Hurl. cbv beta iota zeta delta [negb bind].
        rewrite Hm; cbv beta iota. rewrite Hmem, Hp; cbv beta iota.
        now rewrite Hex. }
  destruct (lookup_person_matched requests_post py_repr _ _ _ _ _ _ Hu Hm Hmem Hp Hex)
    as (p & em & mo & Hperson & -> & _ & _ & Hlook).
  rewrite Hlook. clear Hlook.
  destruct (Py.truthy mo) eqn:Hmo.
  { now apply lo_match with (u := u). }
  rewrite Hperson in Hex.
  destruct (enrich_person_run requests_post _ _ _ _ w2 Hex) as (en & payload & Hen & _).
  fold (enriched_world payload w2) in Hen.
  unfold bind at 1. rewrite Hen.
  destruct (Py.mem "error" en) eqn:Herr.
  { unfold bind. rewrite (subscript_mem _ _ _ Herr).
    now apply lo_enrich_failed with (u := u) (em := em) (mo := mo) (p := p). }
  destruct (Py.truthy (Py.get en "person")) eqn:Hq.
  2:{ now apply lo_enrich_failed with (u := u) (em := em) (mo := mo) (p := p). }
  pose proof (_extract_all_local (Py.get en "person") (enriched_world payload w2)) as Hlocal4.
  unfold bind.
  destruct (_extract_all (Py.get en "person") (enriched_world payload w2))
    as [[fresh|e] w4] eqn:Hfresh; simpl in Hlocal4.
  - apply _extract_all_inv in Hfresh as (q & em' & mo' & _ & _ & _ & _ & _ & ->).
    now apply lo_enrich_fresh with (u := u) (w2 := w2) (payload := payload).
  - apply lo_enrich_raise with (u := u) (w2 := w2) (payload := payload); auto.
    apply (_extract_all_raises (Py.get en "person") (enriched_world payload w2)).
    now rewrite Hfresh.
Qed.

(** The client state a lookup leaves: untouched when the url is empty or is
    no string; otherwise the match request is charged and logged, and the
    enrich request may follow; extractions only add contact credits. *)
Lemma lookup_world_shape (url : json) (w : world) :
  ((Py.truthy url = false \/ forall u, url <> JStr u) /\ snd (lookup url w) = w)
  \/ exists u w2,
       url = JStr u /\ u <> ""
       /\ contact_only (matched_world u w) w2
       /\ (snd (lookup url w) = w2
           \/ exists payload, contact_only (enriched_world payload w2) (snd (lookup url w))).
Proof.
  destruct (lookup_person_outcome url w)
    as [Hf | Ht Hns | u msg -> Hu | u e w2 -> Hu Hc He | u p em mo w2 -> Hu Hc Hmo
        | u p em mo w2 payload msg -> Hu Hc Hmo | u w2 payload e w4 -> Hu Hc Hc4 He
        | u w2 payload q em mo w4 -> Hu Hc Hc4]; simpl.
  - left. auto.
  - left. auto.
  - right. exists u, (matched_world u w). split; [reflexivity|]. split; [exact Hu|].
    split; [apply contact_only_refl | now left].
  - right. exists u, w2. split; [reflexivity|]. split; [exact Hu|].
    split; [exact Hc | now left].
  - right. exists u, w2. split; [reflexivity|]. split; [exact Hu|].
    split; [exact Hc | now left].
  - right. exists u, w2. split; [reflexivity|]. split; [exact Hu|]. split; [exact Hc|].
    right. exists payload. apply contact_only_refl.
  - right. exists u, w2. split; [reflexivity|]. split; [exact Hu|]. split; [exact Hc|].
    right. now exists payload.
  - right. exists u, w2. split; [reflexivity|]. split; [exact Hu|]. split; [exact Hc|].
    right. now exists payload.
Qed.

Lemma unbilled_contact_only (w w' : world) : contact_only w w' -> unbilled w' = unbilled w.
Proof. unfold unbilled. intros (Hc & _ & Hm & He & _). now rewrite Hc, Hm, He. Qed.

Lemma unbilled_matched (u : string) (w : world) : unbilled (matched_world u w) = unbilled w.
Proof. unfold unbilled; simpl. rewrite length_app; simpl. lia. Qed.

Lemma unbilled_enriched (payload : json) (w : world) :
  unbilled (enriched_world payload w) = unbilled w.
Proof. unfold unbilled; simpl. rewrite length_app; simpl. lia. Qed.

(** Every request is paid for and every credit buys a request: whatever the
    url, the network and the outcome (an exception included), a lookup adds
    as many requests to the log as it adds match and enrich credits. *)
Lemma lookup_requests_match_credits (url : json) (w : world) :
  unbilled (snd (lookup url w)) = unbilled w.
Proof.
  destruct (lookup_world_shape url w)
    as [[_ ->] | (u & w2 & _ & _ & Hc & [-> | (payload & Hc4)])].
  - reflexivity.
  - rewrite (unbilled_contact_only _ _ Hc). apply unbilled_matched.
  - rewrite (unbilled_contact_only _ _ Hc4), unbilled_enriched.
    rewrite (unbilled_contact_only _ _ Hc). apply unbilled_matched.
Qed.

Lemma lookup_files (url : json) (w : world) : files (snd (lookup url w)) = files w.
Proof.
  destruct (lookup_world_shape url w)
    as [[_ ->] | (u & w2 & _ & _ & Hc & [-> | (payload & Hc4)])].
  - reflexivity.
  - now destruct Hc as (_ & Hf & _).
  - destruct Hc as (_ & Hf & _). destruct Hc4 as (_ & Hf4 & _). now rewrite Hf4.
Qed.

Lemma lookup_match_credit (url : json) (w : world) :
  (Py.truthy url = false -> credits (snd (lookup url w)) = credits w)
  /\ (forall u, url = JStr u -> u <> "" ->
      match_credits (credits (snd (lookup url w))) = match_credits (credits w) + 1
      /\ enrich_credits (credits w) <= enrich_credits (credits (snd (lookup url w)))
         <= enrich_credits (credits w) + 1).
Proof.
  destruct (lookup_world_shape url w)
    as [[Hno ->] | (u & w2 & -> & Hu & Hc & Hend)].
  - split; [reflexivity|].
    intros u -> Hu. destruct Hno as [Hf | Hns]; [|now elim (Hns u)].
    apply PyFacts.truthy_str in Hu. congruence.
  - split. { intros Hf. apply PyFacts.truthy_str in Hu. congruence. }
    intros u' _ _.
    destruct Hc as (_ & _ & Hm & He & _). simpl in Hm, He.
    destruct Hend as [-> | (payload & (_ & _ & Hm4 & He4 & _))].
    + lia.
    + simpl in Hm4, He4. lia.
Qed.

(** X5. A lookup sends at most two requests, in this order: the match request
    for the stripped url, then the enrich request; it sends none when the
    url is empty, and it never writes a file. *)
Theorem lookup_sends_match_then_enrich (url : json) (w : world) :
  files (snd (lookup url w)) = files w
  /\ (calls (snd (lookup url w)) = calls w
      \/ exists u, url = JStr u /\ u <> ""
          /\ (calls (snd (lookup url w)) = (calls w ++ [(match_url, match_payload u)])%list
              \/ exists payload,
                   calls (snd (lookup url w))
                   = (calls w ++ [(match_url, match_payload u); (enrich_url, payload)])%list)).
Proof.
  destruct (lookup_world_shape url w)
    as [[_ ->] | (u & w2 & -> & Hu & Hc & [-> | (payload & Hc4)])].
  - auto.
  - destruct Hc as (Hc & Hf & _). split; [exact Hf|].
    right. exists u. repeat split; auto.
  - destruct Hc as (Hc & Hf & _). destruct Hc4 as (Hc4 & Hf4 & _).
    split; [now rewrite Hf4|].
    right. exists u. split; [reflexivity|]. split; [exact Hu|].
    right. exists payload. rewrite Hc4. simpl. rewrite Hc. simpl.
    now rewrite <- app_assoc.
Qed.

(** X6. The cost of one lookup, on any input and for any outcome: nothing for an
    empty url; otherwise one match credit, at most one enrich credit, and
    at most two email and two mobile credits. *)
Theorem lookup_credit_bounds (url : json) (w : world) :
  let c := credits w in
  let c' := credits (snd (lookup url w)) in
  (Py.truthy url = false -> c' = c)
  /\ (forall u, url = JStr u -> u <> "" -> match_credits c' = match_credits c + 1)
  /\ match_credits c <= match_credits c' <= match_credits c + 1
  /\ enrich_credits c <= enrich_credits c' <= enrich_credits c + 1
  /\ enrich_credits c' - enrich_credits c <= match_credits c' - match_credits c
  /\ email_credits c <= email_credits c' <= email_credits c + 2
  /\ mobile_credits c <= mobile_credits c' <= mobile_credits c + 2.
Proof.
  cbv zeta.
  destruct (lookup_world_shape url w)
    as [[Hno ->] | (u & w2 & -> & Hu & Hc & [-> | (payload & Hc4)])].
  - split; [reflexivity|]. split; [|lia].
    intros u -> Hu. destruct Hno as [Hf | Hns]; [|now elim (Hns u)].
    apply PyFacts.truthy_str in Hu. congruence.
  - destruct Hc as (_ & _ & Hm & He & Hem & Hmo). simpl in Hm, He, Hem, Hmo.
    split. { intros Hf. apply PyFacts.truthy_str in Hu. congruence. }
    split. { intros; exact Hm. }
    lia.
  - destruct Hc as (_ & _ & Hm & He & Hem & Hmo). simpl in Hm, He, Hem, Hmo.
    destruct Hc4 as (_ & _ & Hm4 & He4 & Hem4 & Hmo4). simpl in Hm4, He4, Hem4, Hmo4.
    split. { intros Hf. apply PyFacts.truthy_str in Hu. congruence. }
    split. { intros; lia. }
    lia.
Qed.

Lemma failure_record_fields (v : json) (msg k : string) :
  k <> "input_linkedin_url" -> k <> "apollo_error" ->
  Py.get (failure_record v msg) k = JNull.
Proof.
  intros H1 H2. unfold Py.get, Py.get_or, failure_record.
  cbn -[String.eqb].
  repeat match goal with
         | |- context [(?a =? k)%string] =>
             let E := fresh in
             destruct (a =? k)%string eqn:E;
             [apply String.eqb_eq in E; subst k; try congruence|]
         end; reflexivity.
Qed.

(** The four shapes of a returned record. *)
Lemma lookup_record_shape (url : json) (w w' : world) (r : dict) :
  lookup url w = (Ret r, w') ->
  (exists msg, r = failure_record (if Py.truthy url then url else JNull) msg)
  \/ (exists p em mo,
        r = Py.set "lookup_used" (JStr "match") (extracted_record p em mo)
        /\ Py.truthy mo = true)
  \/ (exists p em mo msg,
        r = Py.set "apollo_error" (JStr msg)
              (Py.set "lookup_used" (JStr "enrich") (extracted_record p em mo))
        /\ Py.truthy mo = false)
  \/ (exists q em mo,
        r = Py.set "input_linkedin_url" url
              (Py.set "lookup_used" (JStr "enrich") (extracted_record q em mo))).
Proof.
  intros Hrun. pose proof (lookup_person_outcome url w) as Hout.
  rewrite Hrun in Hout.
  inversion Hout as [Hf | Ht Hns | u msg Hurl Hu | u e w2 Hurl Hu Hc He
                     | u p em mo w2 Hurl Hu Hc Hmo
                     | u p em mo w2 payload msg Hurl Hu Hc Hmo
                     | u w2 payload e w4 Hurl Hu Hc Hc4 He
                     | u w2 payload q em mo w4 Hurl Hu Hc Hc4]; subst.
  - left. exists "Empty LinkedIn URL.". now rewrite Hf.
  - left. exists msg.
    apply PyFacts.truthy_str in Hu. now rewrite Hu.
  - right; left. now exists p, em, mo.
  - right; right; left. now exists p, em, mo, msg.
  - right; right; right. now exists q, em, mo.
Qed.

(** X7. Whatever a lookup returns has exactly the 13 output fields, in the
    order of the CSV header; no hypothesis on the vendor is needed. *)
Theorem lookup_record_has_output_fields (url : json) (w w' : world) (r : dict) :
  lookup url w = (Ret r, w') -> Py.keys r = OUTPUT_FIELDNAMES.
Proof.
  intros H.
  destruct (lookup_record_shape _ _ _ _ H)
    as [(msg & ->) | [(p & em & mo & -> & _) | [(p & em & mo & msg & -> & _)
                                               | (q & em & mo & ->)]]];
    reflexivity.
Qed.

(** X8. [lookup_used] tells how the lookup went.  It is null exactly on the
    failure records (every data field null, a message in [apollo_error]);
    "match" comes with no error and a verified mobile phone that is true;
    "enrich" comes either with no error (the enriched record) or with a
    message and no true mobile phone (the match record kept). *)
Theorem lookup_used_tells_outcome (url : json) (w w' : world) (r : dict) :
  lookup url w = (Ret r, w') ->
  (Py.get r "lookup_used" = JNull
   /\ (exists msg, Py.get r "apollo_error" = JStr msg)
   /\ (forall k, k <> "input_linkedin_url" -> k <> "apollo_error" -> Py.get r k = JNull))
  \/ (Py.get r "lookup_used" = JStr "match"
      /\ Py.get r "apollo_error" = JNull
      /\ Py.truthy (Py.get r "verified_mobile_phone") = true)
  \/ (Py.get r "lookup_used" = JStr "enrich"
      /\ (Py.get r "apollo_error" = JNull
          \/ (exists msg, Py.get r "apollo_error" = JStr msg)
             /\ Py.truthy (Py.get r "verified_mobile_phone") = false)).
Proof.
  intros H.
  destruct (lookup_record_shape _ _ _ _ H)
    as [(msg & ->) | [(p & em & mo & -> & Hmo) | [(p & em & mo & msg & -> & Hmo)
                                                 | (q & em & mo & ->)]]].
  - left. split; [reflexivity|]. split; [now exists msg|].
    intros k. apply failure_record_fields.
  - right; left. repeat split. exact Hmo.
  - right; right. split; [reflexivity|]. right. split; [now exists msg | exact Hmo].
  - right; right. split; [reflexivity|]. now left.
Qed.

(** X9. Where [input_linkedin_url] comes from.  On a failure record it is the
    input (null for an empty input); on the enriched record it is the
    input; on the two records built from the match response (the
    short-circuit and the fallback after a failed enrichment) it is the
    url the vendor sent, the same as [linkedin_url]. *)
Theorem input_linkedin_url_provenance (url : json) (w w' : world) (r : dict) :
  lookup url w = (Ret r, w') ->
  (Py.get r "lookup_used" = JNull ->
   Py.get r "input_linkedin_url" = if Py.truthy url then url else JNull)
  /\ (Py.get r "lookup_used" = JStr "match" ->
      Py.get r "input_linkedin_url" = Py.get r "linkedin_url")
  /\ (Py.get r "lookup_used" = JStr "enrich" -> Py.get r "apollo_error" = JNull ->
      Py.get r "input_linkedin_url" = url)
  /\ (Py.get r "lookup_used" = JStr "enrich" -> Py.get r "apollo_error" <> JNull ->
      Py.get r "input_linkedin_url" = Py.get r "linkedin_url").
Proof.
  intros H.
  destruct (lookup_record_shape _ _ _ _ H)
    as [(msg & ->) | [(p & em & mo & -> & Hmo) | [(p & em & mo & msg & -> & Hmo)
                                                 | (q & em & mo & ->)]]].
  all: repeat split; intros; try discriminate; try reflexivity; try congruence.
  exfalso. match goal with Habs : _ <> JNull |- _ => apply Habs end. reflexivity.
Qed.

End Outcomes.

(** On the sample enrichment that times out. *)
Lemma lookup_record_has_output_fields_witness :
  Py.keys (value_or [] (lookup_person Sample.enrich_down Sample.repr (JStr Sample.url) world0))
  = OUTPUT_FIELDNAMES.
Proof.
  apply (lookup_record_has_output_fields Sample.enrich_down Sample.repr (JStr Sample.url)
           world0 (snd (lookup_person Sample.enrich_down Sample.repr (JStr Sample.url) world0))).
  reflexivity.
Defined.

(** On the sample enrichment that times out: "enrich", with a message and
    no mobile phone. *)
Lemma lookup_used_tells_outcome_witness :
  let r := value_or [] (lookup_person Sample.enrich_down Sample.repr (JStr Sample.url) world0) in
  Py.get r "lookup_used" = JStr "enrich"
  /\ Py.get r "apollo_error" = JStr "Enrich error: Read timed out."
  /\ Py.truthy (Py.get r "verified_mobile_phone") = false.
Proof.
  intros r.
  destruct (lookup_used_tells_outcome Sample.enrich_down Sample.repr (JStr Sample.url)
              world0 (snd (lookup_person Sample.enrich_down Sample.repr (JStr Sample.url) world0))
              r eq_refl) as [(_ & _ & _) | [(_ & _ & _) | (_ & _)]];
    repeat split.
Defined.

(** On the sample enrichment that times out: the record carries the url the
    vendor sent, which is not the url asked for. *)
Lemma input_linkedin_url_provenance_witness :
  let r := value_or [] (lookup_person Sample.enrich_down Sample.repr (JStr Sample.url) world0) in
  Py.get r "input_linkedin_url" = Py.get r "linkedin_url"
  /\ Py.get r "input_linkedin_url" <> JStr Sample.url.
Proof.
  intros r. split.
  - apply (proj2 (proj2 (proj2
             (input_linkedin_url_provenance Sample.enrich_down Sample.repr (JStr Sample.url)
                world0
                (snd (lookup_person Sample.enrich_down Sample.repr (JStr Sample.url) world0))
                r eq_refl)))).
    + reflexivity.
    + discriminate.
  - discriminate.
Defined.

(* ================================================================== *)
(** ** Blank urls *)
(* ================================================================== *)

Lemma lstrip_all_space (s : string) : all_space s = true -> Py.lstrip s = "".
Proof.
  induction s as [|c s IH]; simpl; [reflexivity|].
  intros H. apply andb_true_iff in H as [Hc Hs]. rewrite Hc. now apply IH.
Qed.

(** X10. A url cell that holds white space only is not empty for the workflow:
    the match request is sent, with an empty [linkedin_url], and its credit
    is charged. *)
Theorem blank_url_is_looked_up
    (requests_post : list (string * json) -> string -> json -> http_outcome)
    (py_repr : json -> string) (s : string) (w : world) :
  s <> "" ->
  all_space s = true ->
  let w' := snd (lookup_person requests_post py_repr (JStr s) w) in
  match_credits (credits w') = match_credits (credits w) + 1
  /\ exists rest,
       calls w'
       = (calls w
          ++ (match_url, JObj [("person", JObj [("linkedin_url", JStr "")])]) :: rest)%list.
Proof.
  intros Hs Hspace w'.
  assert (Hpayload : match_payload s = JObj [("person", JObj [("linkedin_url", JStr "")])]).
  { unfold match_payload, Py.strip. now rewrite (lstrip_all_space _ Hspace). }
  destruct (lookup_match_credit requests_post py_repr (JStr s) w) as [_ Hm].
  destruct (Hm s eq_refl Hs) as [Hmatch _].
  split; [exact Hmatch|].
  unfold w'.
  destruct (lookup_world_shape requests_post py_repr (JStr s) w)
    as [[[Hf | Hns] _] | (u & w2 & [= <-] & _ & Hc & [-> | (payload & Hc4)])].
  - apply PyFacts.truthy_str in Hs. congruence.
  - now elim (Hns s).
  - destruct Hc as (Hc & _). exists []. rewrite Hc. simpl. now rewrite Hpayload.
  - destruct Hc as (Hc & _). destruct Hc4 as (Hc4 & _).
    exists [(enrich_url, payload)]. rewrite Hc4. simpl. rewrite Hc. simpl.
    now rewrite <- app_assoc, Hpayload.
Qed.

(** At a cell of three blanks. *)
Lemma blank_url_is_looked_up_witness :
  match_credits
    (credits (snd (lookup_person Sample.match_down Sample.repr (JStr "   ") world0)))
  = match_credits (credits world0) + 1.
Proof.
  apply (blank_url_is_looked_up Sample.match_down Sample.repr "   " world0).
  - discriminate.
  - reflexivity.
Defined.

(* ================================================================== *)
(** ** The batch: accounting, formats and preconditions *)
(* ================================================================== *)

Section BatchAccounting.

Variable requests_post : list (string * json) -> string -> json -> http_outcome.
Variable py_repr : json -> string.
Variable read_csv : string -> option csv_table.

Abbreviation lookup := (lookup_person requests_post py_repr).
Abbreviation batch_rows := (process_rows requests_post py_repr).
Abbreviation batch := (process_csv requests_post py_repr read_csv).

Lemma process_rows_unbilled (names : list string) (column : string)
    (table_rows : list (list string)) :
  forall (acc : list dict) (w : world),
    unbilled (snd (batch_rows names column table_rows acc w)) = unbilled w
    /\ files (snd (batch_rows names column table_rows acc w)) = files w.
Proof.
  induction table_rows as [|cells rest IH]; intros acc w; simpl; [auto|].
  unfold bind.
  pose proof (lookup_requests_match_credits requests_post py_repr
                (Py.get (DictReader_row names cells) column) w) as Hb.
  pose proof (lookup_files requests_post py_repr
                (Py.get (DictReader_row names cells) column) w) as Hf.
  destruct (lookup (Py.get (DictReader_row names cells) column) w) as [[r|e] w1];
    simpl in Hb, Hf |- *.
  - destruct (IH (acc ++ [r])%list w1) as [IHb IHf]. split; congruence.
  - auto.
Qed.

Lemma _write_output_unbilled (results : list dict) (path fmt : string) (w : world) :
  unbilled (snd (_write_output py_repr results path fmt w)) = unbilled w.
Proof.
  unfold _write_output, bind.
  destruct (fmt =? "csv")%string.
  - destruct (writerows py_repr results) as [written [|]]; reflexivity.
  - destruct (fmt =? "json")%string; reflexivity.
Qed.

(** X11. Across a whole batch, whatever the table, the format, the network and
    the way the batch ends, the log grows by exactly one request per match
    or enrich credit charged. *)
Theorem batch_requests_match_credits
    (input_csv output_path output_format linkedin_column : string) (w : world) :
  unbilled (snd (batch input_csv output_path output_format linkedin_column w)) = unbilled w.
Proof.
  unfold process_csv.
  destruct (read_csv input_csv) as [[[names|] table_rows]|]; simpl; try reflexivity.
  destruct (existsb (String.eqb linkedin_column) names); simpl; [|reflexivity].
  unfold bind.
  destruct (process_rows_unbilled names linkedin_column table_rows [] w) as [Hb _].
  destruct (batch_rows names linkedin_column table_rows [] w) as [[results|e] w1];
    simpl in Hb |- *; [|exact Hb].
  now rewrite _write_output_unbilled.
Qed.

(** X12. The batch checks its input before it spends anything: with no input
    file, or with a header that lacks the url column, it returns without a
    request, a credit or a file; on a file with no header at all the
    membership test itself raises [TypeError], the state equally
    untouched. *)
Theorem batch_checks_input_first
    (input_csv output_path output_format linkedin_column : string) (w : world) :
  (read_csv input_csv = None ->
   batch input_csv output_path output_format linkedin_column w = (Ret tt, w))
  /\ (forall names table_rows,
        read_csv input_csv = Some (mkTable (Some names) table_rows) ->
        ~ In linkedin_column names ->
        batch input_csv output_path output_format linkedin_column w = (Ret tt, w))
  /\ (forall table_rows,
        read_csv input_csv = Some (mkTable None table_rows) ->
        batch input_csv output_path output_format linkedin_column w
        = (Raise Py.TypeError, w)).
Proof.
  unfold process_csv. split; [|split].
  - now intros ->.
  - intros names table_rows -> Hcol. simpl.
    destruct (existsb (String.eqb linkedin_column) names) eqn:E; [|reflexivity].
    exfalso. apply existsb_exists in E as (x & Hin & Hx).
    apply String.eqb_eq in Hx. now subst x.
  - now intros table_rows ->.
Qed.

End BatchAccounting.

(** On the sample disk, asking for a column the table lacks. *)
Lemma batch_checks_input_first_witness :
  process_csv Sample.enrich_up Sample.repr Sample.disk
    "input.csv" "apollo_output.csv" "csv" "profile" world0
  = (Ret tt, world0).
Proof.
  apply (proj1 (proj2 (batch_checks_input_first Sample.enrich_up Sample.repr Sample.disk
                         "input.csv" "apollo_output.csv" "csv" "profile" world0))
           Sample.names Sample.table_rows).
  - reflexivity.
  - simpl. intros [H | [H | []]]; discriminate.
Defined.

(* ================================================================== *)
(** ** The batch against a vendor that keeps to the data model *)
(* ================================================================== *)

Section BatchRuns.

Variable requests_post : list (string * json) -> string -> json -> http_outcome.
Variable py_repr : json -> string.
Variable read_csv : string -> option csv_table.

Hypothesis vendor : vendor_ok requests_post.

Abbreviation batch_rows := (process_rows requests_post py_repr).
Abbreviation batch := (process_csv requests_post py_repr read_csv).

(** The batch as a whole: the row loop returns, and its records go to the
    writer. *)
Lemma process_csv_run
    (input_csv output_path output_format linkedin_column : string)
    (names : list string) (table_rows : list (list string)) (w : world) :
  read_csv input_csv = Some (mkTable (Some names) table_rows) ->
  In linkedin_column names ->
  exists results w',
    batch_rows names linkedin_column table_rows [] w = (Ret results, w')
    /\ runs requests_post py_repr w (map (row_url names linkedin_column) table_rows)
         results w'
    /\ Forall (fun r => Py.keys r = OUTPUT_FIELDNAMES) results
    /\ batch input_csv output_path output_format linkedin_column w
       = (Ret tt, output_written py_repr output_path output_format results w').
Proof.
  intros Hfile Hcol.
  destruct (process_rows_runs requests_post py_repr vendor names linkedin_column
              table_rows [] w) as (results & w' & Hrows & Hruns & Hall).
  simpl in Hrows. exists results, w'.
  split; [exact Hrows|]. split; [exact Hruns|]. split; [exact Hall|].
  unfold process_csv. rewrite Hfile. cbv beta iota delta [fieldnames rows].
  assert (Hin : existsb (String.eqb linkedin_column) names = true).
  { apply existsb_exists. exists linkedin_column. split; [exact Hcol|].
    apply String.eqb_refl. }
  rewrite Hin. cbv beta iota delta [negb bind].
  rewrite Hrows. now apply _write_output_written.
Qed.

Lemma cell_truthy (url : json) :
  cell_value url -> Py.truthy url = true -> exists u, url = JStr u /\ u <> "".
Proof.
  intros [-> | [u ->]] Ht; [discriminate|].
  exists u. split; [reflexivity | now apply PyFacts.truthy_str].
Qed.

(** Credits along a chain of lookups: one match credit per url that is not
    empty, and at most as many enrich credits. *)
Lemma runs_credits (w w' : world) (urls : list json) (results : list dict) :
  runs requests_post py_repr w urls results w' ->
  Forall cell_value urls ->
  match_credits (credits w')
  = match_credits (credits w) + Z.of_nat (length (billable urls))
  /\ enrich_credits (credits w) <= enrich_credits (credits w')
     <= enrich_credits (credits w) + Z.of_nat (length (billable urls)).
Proof.
  induction 1 as [|w url r w1 urls rs w2 Hr _ IH]; intros Hcells.
  - simpl. lia.
  - inversion Hcells as [|? ? Hcell Hrest]; subst.
    specialize (IH Hrest).
    pose proof (lookup_match_credit requests_post py_repr url w) as Hb.
    rewrite Hr in Hb. simpl snd in Hb.
    destruct Hb as (Hempty & Hmatch).
    unfold billable in *. simpl filter.
    destruct (Py.truthy url) eqn:Ht.
    + destruct (cell_truthy url Hcell Ht) as (u & -> & Hu).
      destruct (Hmatch u eq_refl Hu) as [Hm He]. simpl length.
      rewrite Nat2Z.inj_succ. lia.
    + rewrite (Hempty eq_refl) in IH. exact IH.
Qed.

Lemma row_urls_cells (names : list string) (column : string)
    (table_rows : list (list string)) :
  Forall cell_value (map (row_url names column) table_rows).
Proof.
  induction table_rows; simpl; constructor; auto using row_url_cell.
Qed.

(** X13. What a batch costs: one match credit for every row whose url cell is
    not empty, none for the others, and at most one enrich credit for each
    of those rows. *)
Theorem batch_charges_one_match_per_url
    (names : list string) (linkedin_column : string)
    (table_rows : list (list string)) (w : world) :
  exists results w',
    batch_rows names linkedin_column table_rows [] w = (Ret results, w')
    /\ match_credits (credits w')
       = match_credits (credits w)
         + Z.of_nat (length (billable (map (row_url names linkedin_column) table_rows)))
    /\ enrich_credits (credits w) <= enrich_credits (credits w')
       <= enrich_credits (credits w)
          + Z.of_nat (length (billable (map (row_url names linkedin_column) table_rows))).
Proof.
  destruct (process_rows_runs requests_post py_repr vendor names linkedin_column
              table_rows [] w) as (results & w' & Hrows & Hruns & _).
  simpl in Hrows. exists results, w'. split; [exact Hrows|].
  apply (runs_credits _ _ _ _ Hruns). apply row_urls_cells.
Qed.









End BatchRuns.

(** On the three-row sample table: one url that is not empty, one match
    credit. *)
Lemma batch_charges_one_match_per_url_witness :
  exists results w',
    process_rows Sample.enrich_up Sample.repr Sample.names "linkedin_url"
      Sample.table_rows [] world0 = (Ret results, w')
    /\ match_credits (credits w') = 1
    /\ 0 <= enrich_credits (credits w') <= 1.
Proof.
  apply (batch_charges_one_match_per_url Sample.enrich_up Sample.repr sample_vendor_ok
           Sample.names "linkedin_url" Sample.table_rows world0).
Defined.




(* ================================================================== *)
(** ** The url cell of a row *)
(* ================================================================== *)

Lemma zip_row_short (names : list string) (d : dict) :
  zip_row names [] d = fold_left (fun acc n => Py.set n JNull acc) names d.
Proof. destruct names; reflexivity. Qed.

Lemma zip_row_other (k : string) (names : list string) :
  ~ In k names ->
  forall cells d, Py.lookup k (zip_row names cells d) = Py.lookup k d.
Proof.
  induction names as [|n names IH]; intros Hk cells d.
  - destruct cells; reflexivity.
  - assert (Hn : n <> k) by (intros ->; apply Hk; now left).
    assert (Hk' : ~ In k names) by (intros H; apply Hk; now right).
    destruct cells as [|c cells].
    + rewrite zip_row_short. simpl. rewrite <- zip_row_short.
      rewrite (IH Hk'). now apply PyFacts.lookup_set_other.
    + simpl. rewrite (IH Hk'). now apply PyFacts.lookup_set_other.
Qed.

(** X16. Under a header without repeated names, the url the batch looks up for a
    row is the cell standing in the url column, and null when the row ends
    before that column. *)
Theorem row_url_reads_column (names : list string) (column : string) (i : nat) :
  NoDup names ->
  nth_error names i = Some column ->
  forall cells,
    row_url names column cells
    = match nth_error cells i with
      | Some c => JStr c
      | None => JNull
      end.
Proof.
  intros Hnodup Hi cells.
  unfold row_url, DictReader_row, Py.get, Py.get_or.
  enough (H : forall d, Py.lookup column (zip_row names cells d)
                        = Some match nth_error cells i with
                               | Some c => JStr c
                               | None => JNull
                               end) by now rewrite H.
  revert i Hi cells.
  induction Hnodup as [|n names Hn _ IH]; intros i Hi cells d.
  - destruct i; discriminate.
  - destruct i as [|i]; simpl in Hi.
    + injection Hi as ->.
      destruct cells as [|c cells].
      * rewrite zip_row_short. simpl. rewrite <- zip_row_short.
        rewrite (zip_row_other _ _ Hn). apply PyFacts.lookup_set_same.
      * simpl. rewrite (zip_row_other _ _ Hn). apply PyFacts.lookup_set_same.
    + destruct cells as [|c cells].
      * rewrite zip_row_short. simpl. rewrite <- zip_row_short.
        rewrite (IH i Hi []). now destruct i.
      * simpl. apply (IH i Hi).
Qed.

(** On the sample header: the second cell, or null for the short row. *)
Lemma row_url_reads_column_witness :
  row_url Sample.names "linkedin_url" ["Ada"; Sample.url] = JStr Sample.url
  /\ row_url Sample.names "linkedin_url" ["Eve"] = JNull.
Proof.
  assert (Hnodup : NoDup Sample.names).
  { repeat constructor; simpl; intuition discriminate. }
  split.
  - apply (row_url_reads_column Sample.names "linkedin_url" 1 Hnodup eq_refl
             ["Ada"; Sample.url]).
  - apply (row_url_reads_column Sample.names "linkedin_url" 1 Hnodup eq_refl ["Eve"]).
Defined.

(* ================================================================== *)
(** ** The execution block *)
(* ================================================================== *)

Section Main.

Variable requests_post : list (string * json) -> string -> json -> http_outcome.
Variable py_repr : json -> string.
Variable read_csv : string -> option csv_table.

Abbreviation script := (main requests_post py_repr read_csv).

(** X17. The script needs its key: when the variable is unset or empty it exits
    with status 1 and has done nothing; otherwise the constructor's own
    check cannot fail, and the script is the batch on "input.csv", written
    as CSV to "apollo_output.csv", with counters that start at 0. *)
Theorem main_needs_key (getenv : option string) (w : world) :
  (getenv = None \/ getenv = Some "" -> script getenv w = (Ret (Exit 1), w))
  /\ (forall key, getenv = Some key -> key <> "" ->
      __init__ (JStr key) w = (Ret tt, with_credits (fun _ => CreditUsage0) w)
      /\ script getenv w
         = (let (o, w') :=
              process_csv requests_post py_repr read_csv
                "input.csv" "apollo_output.csv" "csv" "linkedin_url"
                (with_credits (fun _ => CreditUsage0) w) in
            (match o with Ret _ => Ret Completed | Raise e => Raise e end, w'))).
Proof.
  split.
  - intros [-> | ->]; reflexivity.
  - intros key -> Hkey. apply PyFacts.truthy_str in Hkey.
    unfold main, __init__, bind. rewrite Hkey.
    cbv beta iota zeta delta [negb modify ret].
    split; [reflexivity|].
    destruct (process_csv requests_post py_repr read_csv _ _ _ _ _) as [[[]|e] w'];
      reflexivity.
Qed.

Hypothesis vendor : vendor_ok requests_post.

(** X18. With a key, an "input.csv" that has the column "linkedin_url" and a
    vendor that keeps to the data model, the script runs through and
    leaves one more file, "apollo_output.csv": the 13-column header and
    one row per input row; the match credits it reports count, from 0, the
    rows whose url is not empty. *)
Theorem main_writes_one_row_per_input_row
    (key : string) (names : list string) (table_rows : list (list string)) (w : world) :
  key <> "" ->
  read_csv "input.csv" = Some (mkTable (Some names) table_rows) ->
  In "linkedin_url" names ->
  exists table w',
    script (Some key) w = (Ret Completed, w')
    /\ files w' = (files w ++ [("apollo_output.csv", CsvFile OUTPUT_FIELDNAMES table)])%list
    /\ length table = length table_rows
    /\ Forall (fun row => length row = 13%nat) table
    /\ match_credits (credits w')
       = Z.of_nat (length (billable (map (row_url names "linkedin_url") table_rows))).
Proof.
  intros Hkey Hfile Hcol.
  set (w0 := with_credits (fun _ => CreditUsage0) w).
  assert (Hmain : script (Some key) w
                  = (let (o, w') :=
                       process_csv requests_post py_repr read_csv
                         "input.csv" "apollo_output.csv" "csv" "linkedin_url" w0 in
                     (match o with Ret _ => Ret Completed | Raise e => Raise e end, w'))).
  { apply PyFacts.truthy_str in Hkey.
    unfold main, __init__, bind. rewrite Hkey.
    cbv beta iota zeta delta [negb modify ret]. fold w0.
    destruct (process_csv requests_post py_repr read_csv _ _ _ _ _) as [[[]|e] w'];
      reflexivity. }
  rewrite Hmain. clear Hmain.
  destruct (process_csv_run requests_post py_repr read_csv vendor
              "input.csv" "apollo_output.csv" "csv" "linkedin_url"
              names table_rows w0 Hfile Hcol)
    as (results & w' & Hrows & Hruns & Hall & ->).
  exists (map (fun r => map (csv_field py_repr) (_dict_to_list r)) results),
         (output_written py_repr "apollo_output.csv" "csv" results w').
  split; [reflexivity|].
  pose proof (process_rows_unbilled requests_post py_repr names "linkedin_url"
                table_rows [] w0) as [_ Hf].
  rewrite Hrows in Hf. simpl in Hf.
  split; [simpl; now rewrite Hf|].
  split.
  { rewrite length_map, (runs_length _ _ _ _ _ _ Hruns). apply length_map. }
  split.
  { apply Forall_forall. intros row Hrow. apply in_map_iff in Hrow as (r & <- & _).
    unfold _dict_to_list. now rewrite !length_map. }
  destruct (runs_credits requests_post py_repr _ _ _ _ Hruns
              (row_urls_cells names "linkedin_url" table_rows)) as [Hm _].
  simpl. rewrite Hm. reflexivity.
Qed.

End Main.

(** With an empty key. *)
Lemma main_needs_key_witness :
  main Sample.enrich_up Sample.repr Sample.disk (Some "") world0 = (Ret (Exit 1), world0).
Proof.
  apply (proj1 (main_needs_key Sample.enrich_up Sample.repr Sample.disk (Some "") world0)).
  right; reflexivity.
Defined.

(** On the sample disk. *)
Lemma main_writes_one_row_per_input_row_witness :
  exists table w',
    main Sample.enrich_up Sample.repr Sample.disk (Some "secret") world0
    = (Ret Completed, w')
    /\ files w' = [("apollo_output.csv", CsvFile OUTPUT_FIELDNAMES table)]
    /\ length table = 3%nat
    /\ Forall (fun row => length row = 13%nat) table
    /\ match_credits (credits w') = 1.
Proof.
  apply (main_writes_one_row_per_input_row Sample.enrich_up Sample.repr Sample.disk
           sample_vendor_ok "secret" Sample.names Sample.table_rows world0).
  - discriminate.
  - reflexivity.
  - simpl. right. left. reflexivity.
Defined.

(* ================================================================== *)
(** ** When the vendor leaves the data model *)
(* ================================================================== *)

Section Failures.

Variable requests_post : list (string * json) -> string -> json -> http_outcome.
Variable py_repr : json -> string.
Variable read_csv : string -> option csv_table.

Abbreviation lookup := (lookup_person requests_post py_repr).
Abbreviation batch_rows := (process_rows requests_post py_repr).
Abbreviation batch := (process_csv requests_post py_repr read_csv).

(** Rows whose lookups return are passed, in order, to the rest of the
    loop. *)
Lemma process_rows_prefix (names : list string) (column : string)
    (before rest : list (list string)) :
  forall (acc : list dict) (w w1 : world) (results : list dict),
    runs requests_post py_repr w (map (row_url names column) before) results w1 ->
    batch_rows names column (before ++ rest)%list acc w
    = batch_rows names column rest (acc ++ results)%list w1.
Proof.
  induction before as [|cells before IH]; intros acc w w1 results Hruns.
  - inversion Hruns; subst. now rewrite app_nil_r.
  - inversion Hruns as [|? ? r wa ? rs ? Hr Hrest]; subst.
    cbn [app process_rows]. unfold bind.
    fold (row_url names column cells). rewrite Hr.
    rewrite (IH _ _ _ _ Hrest). now rewrite <- app_assoc.
Qed.

Lemma runs_files (w w1 : world) (urls : list json) (results : list dict) :
  runs requests_post py_repr w urls results w1 -> files w1 = files w.
Proof.
  induction 1 as [|w url r wa urls rs w1 Hr _ IH]; [reflexivity|].
  pose proof (lookup_files requests_post py_repr url w) as Hf.
  rewrite Hr in Hf. simpl in Hf. congruence.
Qed.

(** X19. Nothing catches an exception in the row loop.  When the lookups of
    the first rows return and the lookup of the next row raises, the batch
    raises that same exception in the state that lookup left: the rows
    after it are never looked up, no file is written, and the credits of
    the rows before it stay spent. *)
Theorem failed_lookup_aborts_batch
    (input_csv output_path output_format linkedin_column : string)
    (names : list string) (before after : list (list string)) (cells : list string)
    (w w1 w2 : world) (results : list dict) (e : Py.exn) :
  read_csv input_csv = Some (mkTable (Some names) (before ++ cells :: after)%list) ->
  In linkedin_column names ->
  runs requests_post py_repr w (map (row_url names linkedin_column) before) results w1 ->
  lookup (row_url names linkedin_column cells) w1 = (Raise e, w2) ->
  batch input_csv output_path output_format linkedin_column w = (Raise e, w2)
  /\ files w2 = files w
  /\ match_credits (credits w2)
     = match_credits (credits w)
       + Z.of_nat (length (billable (map (row_url names linkedin_column) before))) + 1.
Proof.
  intros Hfile Hcol Hruns Hraise.
  split; [|split].
  - unfold process_csv. rewrite Hfile. cbv beta iota delta [fieldnames rows].
    assert (Hin : existsb (String.eqb linkedin_column) names = true).
    { apply existsb_exists. exists linkedin_column. split; [exact Hcol|].
      apply String.eqb_refl. }
    rewrite Hin. cbv beta iota delta [negb bind].
    rewrite (process_rows_prefix _ _ _ _ _ _ _ _ Hruns).
    cbn [process_rows]. unfold bind.
    fold (row_url names linkedin_column cells). now rewrite Hraise.
  - pose proof (lookup_files requests_post py_repr (row_url names linkedin_column cells) w1)
      as Hf.
    rewrite Hraise in Hf. simpl in Hf. rewrite Hf. exact (runs_files _ _ _ _ Hruns).
  - destruct (runs_credits requests_post py_repr _ _ _ _ Hruns
                (row_urls_cells names linkedin_column before)) as [Hm _].
    destruct (lookup_match_credit requests_post py_repr
                (row_url names linkedin_column cells) w1) as [Hempty Hmatch].
    rewrite Hraise in Hempty, Hmatch. simpl snd in Hempty, Hmatch.
    destruct (row_url_cell names linkedin_column cells) as [Hnull | [u Hu]].
    + exfalso. rewrite Hnull in Hraise. discriminate Hraise.
    + destruct (String.eqb_spec u "") as [-> | Hne].
      * exfalso. rewrite Hu in Hraise. discriminate Hraise.
      * destruct (Hmatch u Hu Hne) as [Hone _]. lia.
Qed.


End Failures.

(** On a vendor that sends a null organization, with a first row that has
    no url: the batch stops at the second row with [AttributeError], one
    match credit spent, no file written, the third row never looked up. *)
Lemma failed_lookup_aborts_batch_witness :
  let w2 := snd (lookup_person Sample.null_organization_net Sample.repr
                   (JStr Sample.url) world0) in
  process_csv Sample.null_organization_net Sample.repr Sample.late_disk
    "input.csv" "apollo_output.csv" "csv" "linkedin_url" world0
  = (Raise Py.AttributeError, w2)
  /\ files w2 = []
  /\ match_credits (credits w2) = 1
  /\ length (calls w2) = 1%nat.
Proof.
  intros w2.
  destruct (failed_lookup_aborts_batch Sample.null_organization_net Sample.repr
              Sample.late_disk "input.csv" "apollo_output.csv" "csv" "linkedin_url"
              ["name"; "linkedin_url"] [["Bob"; ""]] [["Eve"; Sample.url]]
              ["Ada"; Sample.url] world0 world0 w2
              [failure_record JNull "Empty LinkedIn URL."] Py.AttributeError)
    as (Hbatch & Hfiles & Hcredits).
  - reflexivity.
  - simpl. right. left. reflexivity.
  - econstructor; [reflexivity | constructor].
  - reflexivity.
  - split; [exact Hbatch|]. split; [exact Hfiles|]. split; [exact Hcredits | reflexivity].
Defined.


(* ================================================================== *)
(** ** The enrich request *)
(* ================================================================== *)

(** X20. The enrich request is built from the matched person, not from the
    input: it carries the url, the first name, the last name and the
    company name that the extraction put in the match record. *)
Theorem enrich_request_repeats_match_record
    (requests_post : list (string * json) -> string -> json -> http_outcome)
    (person : json) (w0 w1 w : world) (ex : dict) :
  _extract_all person w0 = (Ret ex, w1) ->
  snd (enrich_person requests_post person w)
  = enriched_world
      (JObj [ ("linkedin_url", Py.get ex "linkedin_url");
              ("first_name", Py.get ex "first_name");
              ("last_name", Py.get ex "last_name");
              ("organization_name", Py.get ex "company_name") ])
      w.
Proof.
  intros H. apply _extract_all_inv in H as (p & em & mo & wm & -> & Ho & _ & _ & ->).
  unfold enrich_person, bind, _post; simpl. rewrite Ho; simpl.
  reflexivity.
Qed.

(** On the sample person without a mobile number. *)
Lemma enrich_request_repeats_match_record_witness :
  calls (snd (enrich_person Sample.enrich_down (JObj Sample.without_mobile) world0))
  = [ (enrich_url,
       JObj [ ("linkedin_url", JStr "http://www.linkedin.com/in/ada-lovelace");
              ("first_name", JStr "Ada");
              ("last_name", JStr "Lovelace");
              ("organization_name", JStr "Acme") ]) ].
Proof.
  rewrite (enrich_request_repeats_match_record Sample.enrich_down
             (JObj Sample.without_mobile) world0
             (snd (_extract_all (JObj Sample.without_mobile) world0)) world0
             (value_or [] (_extract_all (JObj Sample.without_mobile) world0)) eq_refl).
  reflexivity.
Defined.
